(** * Schema use cases of weaviate: a shallow embedding

    Two source files are embedded.

    - [usecases/schema/update_property.go]: [Manager.UpdatePropertyAddDataType]
      and its helper [dataTypeAlreadyContained].
    - [usecases/schema/handler.go]: [Handler.GetSchema],
      [Handler.GetSchemaSkipAuth], [Handler.UpdateShardStatus],
      [Handler.ShardsStatus] and [Handler.JoinNode].

    Both are thin procedures over collaborators (authorizer, migrator, meta
    reader and writer, cluster state).  A collaborator is embedded as an
    oracle: a function from the state reached so far (which includes the
    history of collaborator calls) and the call's arguments to the call's
    result.  Every collaborator call is appended to a log, so that "is never
    invoked" is a statement about that log. *)

From Stdlib Require Import ZArith String Ascii List DecimalString Lia.
From stdpp Require Import base list strings.

Local Open Scope string_scope.
Local Open Scope list_scope.

(** ** Go values shared by both files *)

(** A Go [error] is [nil] or a value.  Errors made by [fmt.Errorf] carry their
    formatted message; the two not-found errors are those of the lookup
    helpers of [entities/schema]. *)
Inductive goerror : Type :=
| Errorf (msg : string)
| ErrNoSuchClass (className : string)
| ErrNoSuchProperty (propName className : string).

(** [None] is Go's [nil] error. *)
Definition error : Type := option goerror.

(** [context.Context] is only ever forwarded to collaborators. *)
Inductive Context : Type :=
| Background
| WithDeadline (seconds : nat).

Module models.

(** [models.Property]: the fields the embedded code touches. *)
Record Property : Type := {
  Name : string;
  DataType : list string
}.

(** [models.Class].  Go names the field holding the class name [Class]; it is
    [class] here (its JSON name) because the record already has that name. *)
Record Class : Type := {
  class : string;
  Properties : list Property
}.

(** [models.Schema]. *)
Record Schema : Type := {
  Classes : list Class
}.

(** [models.Principal]; a [*models.Principal] may be [nil]. *)
Record Principal : Type := {
  Username : string;
  Groups : list string
}.

End models.

(** ** A state monad for procedures over a mutable world *)

Definition M (S A : Type) : Type := S -> A * S.

Definition ret {S A : Type} (a : A) : M S A := fun s => (a, s).

Definition bind {S A B : Type} (m : M S A) (k : A -> M S B) : M S B :=
  fun s => let (a, s') := m s in k a s'.

Definition gets {S A : Type} (f : S -> A) : M S A := fun s => (f s, s).

Definition modify {S : Type} (f : S -> S) : M S unit := fun s => (tt, f s).

Declare Scope go_scope.
Delimit Scope go_scope with go.

Notation "x <- c1 ;; c2" := (bind c1 (fun x => c2))
  (at level 100, c1 at next level, right associativity) : go_scope.
Notation "c1 ;;; c2" := (bind c1 (fun _ => c2))
  (at level 100, right associativity) : go_scope.

Local Open Scope go_scope.

(** ** usecases/schema/update_property.go *)

Module Manager.

Import models.

(** Pointers into the shared in-memory schema.  [Schema.Classes] is a
    [[]*models.Class] and [Class.Properties] a [[]*models.Property]: a class
    pointer is the position of the class in [Classes], a property pointer the
    position of the class together with the position of the property. *)
Abbreviation ClassPtr := nat (only parsing).
Abbreviation PropertyPtr := (nat * nat)%type (only parsing).

Definition derefClass (s : Schema) (c : ClassPtr) : option Class :=
  Classes s !! c.

Definition derefProperty (s : Schema) (p : PropertyPtr) : option Property :=
  match derefClass s (fst p) with
  | Some c => Properties c !! snd p
  | None => None
  end.

(** [prop.DataType = v], written through the pointer.  A [DataType] slice is
    embedded as the list of its elements.  Go's [append] may write the new
    element into a backing array that another slice shares (capacity beyond
    length); what that does to other properties is outside this embedding,
    and the theorems below speak of the addressed property's list only. *)
Definition setDataType (v : list string) (prop : Property) : Property :=
  {| Name := Name prop; DataType := v |}.

Definition alterProperties (f : list Property -> list Property) (c : Class) : Class :=
  {| class := class c; Properties := f (Properties c) |}.

Definition storeDataType (s : Schema) (p : PropertyPtr) (v : list string) : Schema :=
  {| Classes := alter (alterProperties (alter (setDataType v) (snd p))) (fst p) (Classes s) |}.

(** Modelled from the spec: [schema.GetClassByName] of [entities/schema] is not
    among the sources.  "fetch class by name (exact match; class-not-found is a
    named error, not found silently)": the first class whose name equals
    [className], as a pointer, or the not-found error. *)
Definition GetClassByName (s : Schema) (className : string) : goerror + ClassPtr :=
  match list_find (fun c => class c = className) (Classes s) with
  | Some (i, _) => inr i
  | None => inl (ErrNoSuchClass className)
  end.

(** Modelled from the spec: [schema.GetPropertyByName] of [entities/schema] is
    not among the sources.  "fetch property by name": the first property of the
    class whose name equals [propName], as a pointer, or the not-found
    error.  The class pointer comes from [GetClassByName] and is never
    dangling, so the last branch is not reached. *)
Definition GetPropertyByName (s : Schema) (c : ClassPtr) (propName : string)
  : goerror + PropertyPtr :=
  match derefClass s c with
  | Some cl =>
      match list_find (fun p => Name p = propName) (Properties cl) with
      | Some (j, _) => inr (c, j)
      | None => inl (ErrNoSuchProperty propName (class cl))
      end
  | None => inl (ErrNoSuchProperty propName "")
  end.

(** The loop of [dataTypeAlreadyContained]; [==] on Go strings is
    byte-for-byte equality. *)
Fixpoint dataTypeAlreadyContained (haystack : list string) (needle : string) : bool :=
  match haystack with
  | [] => false
  | hay :: rest =>
      if String.eqb hay needle then true
      else dataTypeAlreadyContained rest needle
  end.

(** Collaborator calls made by the manager, in the order they happen. *)
Inductive Call : Type :=
| CallAuthorize (principal : option Principal) (verb resource : string)
| CallSchemaFor
| CallSaveSchema (ctx : Context)
| CallMigratorUpdatePropertyAddDataType
    (ctx : Context) (className propName newDataType : string).

(** The world the manager runs in: the schema object that [m.state] points to,
    shared with everybody else who holds the pointer, and the call log. *)
Record State : Type := {
  ObjectSchema : Schema;
  calls : list Call
}.

(** [*Manager]: the collaborators.  [m.saveSchema] lives in another file of
    the package and is taken as a collaborator as well. *)
Record Manager : Type := {
  authorizer_Authorize : State -> option Principal -> string -> string -> error;
  saveSchema_result : State -> Context -> error;
  migrator_UpdatePropertyAddDataType :
    State -> Context -> string -> string -> string -> error
}.

Definition logCall (c : Call) (st : State) : State :=
  {| ObjectSchema := ObjectSchema st; calls := calls st ++ [c] |}.

(** A collaborator call: its result is read off the state before the call,
    and the call is logged. *)
Definition invoke {A : Type} (c : Call) (result : State -> A) : M State A :=
  fun st => (result st, logCall c st).

Definition Authorize (m : Manager) (principal : option Principal)
  (verb resource : string) : M State error :=
  invoke (CallAuthorize principal verb resource)
         (fun st => authorizer_Authorize m st principal verb resource).

(** [m.state.SchemaFor()] hands out the pointer to the shared schema. *)
Definition SchemaFor : M State Schema :=
  invoke CallSchemaFor ObjectSchema.

Definition saveSchema (m : Manager) (ctx : Context) : M State error :=
  invoke (CallSaveSchema ctx) (fun st => saveSchema_result m st ctx).

Definition migrate (m : Manager) (ctx : Context)
  (className propName newDataType : string) : M State error :=
  invoke (CallMigratorUpdatePropertyAddDataType ctx className propName newDataType)
         (fun st => migrator_UpdatePropertyAddDataType m st ctx className propName newDataType).

(** [prop.DataType] read through the pointer, in the current state.  A
    pointer returned by the lookups always points to a property, so the
    empty default is never read. *)
Definition loadDataType (prop : PropertyPtr) : M State (list string) :=
  gets (fun st =>
          match derefProperty (ObjectSchema st) prop with
          | Some p => DataType p
          | None => []
          end).

(** [prop.DataType = v] written through the pointer, in the current state. *)
Definition writeDataType (prop : PropertyPtr) (v : list string) : M State unit :=
  modify (fun st =>
            {| ObjectSchema := storeDataType (ObjectSchema st) prop v;
               calls := calls st |}).

Definition UpdatePropertyAddDataType (m : Manager) (ctx : Context)
  (principal : option Principal) (className propName newDataType : string)
  : M State error :=
  err <- Authorize m principal "update" "schema/objects" ;;
  match err with
  | Some e => ret (Some e)
  | None =>
      semanticSchema <- SchemaFor ;;
      match GetClassByName semanticSchema className with
      | inl e => ret (Some e)
      | inr class =>
          match GetPropertyByName semanticSchema class propName with
          | inl e => ret (Some e)
          | inr prop =>
              dataType <- loadDataType prop ;;
              if dataTypeAlreadyContained dataType newDataType then ret None
              else
                writeDataType prop (dataType ++ [newDataType]) ;;;
                err <- saveSchema m ctx ;;
                match err with
                | Some _ => ret None
                | None => migrate m ctx className propName newDataType
                end
          end
      end
  end.

(** The data types of property [propName] of class [className], as the
    lookups of [UpdatePropertyAddDataType] find them. *)
Definition dataTypesOf (s : Schema) (className propName : string) : option (list string) :=
  match GetClassByName s className with
  | inl _ => None
  | inr c =>
      match GetPropertyByName s c propName with
      | inl _ => None
      | inr p => DataType <$> derefProperty s p
      end
  end.

(** Schema [s] with the data types of property [propName] of class
    [className] replaced by [v]; [s] itself when the lookups fail. *)
Definition withDataTypes (s : Schema) (className propName : string) (v : list string)
  : Schema :=
  match GetClassByName s className with
  | inl _ => s
  | inr c =>
      match GetPropertyByName s c propName with
      | inl _ => s
      | inr p => storeDataType s p v
      end
  end.

(** The class against which a property lookup runs: the first one named
    [className]. *)
Definition firstClassNamed (s : Schema) (className : string) : option Class :=
  snd <$> list_find (fun c => class c = className) (Classes s).

(** The authorization request of [UpdatePropertyAddDataType]. *)
Definition authCall (principal : option Principal) : Call :=
  CallAuthorize principal "update" "schema/objects".

(** The calls logged between two states. *)
Definition callsSince (st st' : State) : list Call :=
  drop (length (calls st)) (calls st').

(** The state in which [m.saveSchema] is called when [v] is the extended list:
    authorization and schema read are logged, [v] is already stored. *)
Definition stateAtSave (principal : option Principal) (className propName : string)
  (v : list string) (st : State) : State :=
  {| ObjectSchema := withDataTypes (ObjectSchema st) className propName v;
     calls := calls st ++ [authCall principal; CallSchemaFor] |}.

(** Two invocations in a row with the same arguments: the state after the
    first one, and result and state of the second one. *)
Definition addTwice (m : Manager) (ctx : Context) (principal : option Principal)
  (className propName newDataType : string) (st : State) : State * (error * State) :=
  let st1 := snd (UpdatePropertyAddDataType m ctx principal className propName newDataType st) in
  (st1, UpdatePropertyAddDataType m ctx principal className propName newDataType st1).

(** What two invocations in a row are said to achieve: the second one returns
    [nil], changes nothing and writes nothing, and afterwards the type occurs
    [n] times in the property's list. *)
Definition secondAddIsNoop (n : nat) (m : Manager) (ctx : Context)
  (principal : option Principal) (className propName newDataType : string)
  (st : State) : Prop :=
  let '(st1, (err2, st2)) := addTwice m ctx principal className propName newDataType st in
  err2 = None
  /\ ObjectSchema st2 = ObjectSchema st1
  /\ callsSince st1 st2 = [authCall principal; CallSchemaFor]
  /\ exists dts', dataTypesOf (ObjectSchema st2) className propName = Some dts'
                  /\ count_occ string_dec dts' newDataType = n.

(** Which calls are writes. *)
Definition isWrite (c : Call) : bool :=
  match c with
  | CallSaveSchema _ => true
  | CallMigratorUpdatePropertyAddDataType _ _ _ _ => true
  | _ => false
  end.

End Manager.

(** ** Go's [strings] and [fmt], as far as handler.go uses them *)

Module strings.

(** [s[:m]] and [s[k:]] on byte strings. *)
Fixpoint sliceTo (m : nat) (s : string) : string :=
  match m, s with
  | S m', String c rest => String c (sliceTo m' rest)
  | _, _ => EmptyString
  end.

Fixpoint sliceFrom (k : nat) (s : string) : string :=
  match k, s with
  | S k', String _ rest => sliceFrom k' rest
  | _, _ => s
  end.

(** [strings.Index]: the position of the first occurrence of [substr] in [s];
    [None] is Go's [-1]. *)
Fixpoint Index (s substr : string) : option nat :=
  if String.prefix substr s then Some 0
  else
    match s with
    | EmptyString => None
    | String _ rest => S <$> Index rest substr
    end.

(** [strings.Count] for a non-empty [substr]: the loop that cuts [s] after
    every occurrence.  It runs at most [len(s)] times, which is the fuel. *)
Fixpoint countLoop (fuel : nat) (s substr : string) : nat :=
  match fuel with
  | 0 => 0
  | S fuel' =>
      match Index s substr with
      | None => 0
      | Some i => S (countLoop fuel' (sliceFrom (i + String.length substr) s) substr)
      end
  end.

Definition Count (s substr : string) : nat :=
  countLoop (String.length s) s substr.

(** The loop of [genSplit] with [sepSave = 0]: at most [n] cuts. *)
Fixpoint genSplitLoop (n : nat) (s sep : string) : list string :=
  match n with
  | 0 => [s]
  | S n' =>
      match Index s sep with
      | None => [s]
      | Some m =>
          sliceTo m s :: genSplitLoop n' (sliceFrom (m + String.length sep) s) sep
      end
  end.

(** [explode]: one string per byte (Go cuts at UTF-8 sequences, which is the
    same on ASCII input).  Only reached with an empty separator. *)
Fixpoint explode (s : string) : list string :=
  match s with
  | EmptyString => []
  | String c rest => String c EmptyString :: explode rest
  end.

(** [strings.Split(s, sep)] is [genSplit(s, sep, 0, -1)]: with a non-empty
    separator the loop runs [Count(s, sep)] times. *)
Definition Split (s sep : string) : list string :=
  if String.eqb sep "" then explode s
  else genSplitLoop (Count s sep) s sep.

End strings.

Module fmt.

(** [fmt.Sprintf("%d", n)] for an integer [n]. *)
Definition Sprintf_d (n : Z) : string :=
  NilZero.string_of_int (Z.to_int n).

End fmt.

Module schema.

(** [schema.Schema]: [Objects] is a [*models.Schema]; the zero value has a
    [nil] pointer. *)
Record Schema : Type := {
  Objects : option models.Schema
}.

Definition zero : Schema := {| Objects := None |}.

End schema.

(** ** usecases/schema/handler.go *)

Module Handler.

Import models.

(** Collaborator calls made by the handler, in the order they happen. *)
Inductive Call : Type :=
| CallAuthorize (principal : option Principal) (verb resource : string)
| CallReadOnlySchema
| CallUpdateShardStatus (class shard status : string)
| CallNodeHostname (nodeID : string)
| CallJoin (ctx : Context) (nodeID raftAddr : string) (voter : bool).

(** The world the handler runs in: the schema held by the store behind
    [metaReader], and the call log.  What a committed write does to the store
    is the business of the consensus layer, not of the handler. *)
Record World : Type := {
  store : models.Schema;
  calls : list Call
}.

(** [*Handler]: the collaborators whose answers the embedded methods use. *)
Record Handler : Type := {
  Authorizer_Authorize : World -> option Principal -> string -> string -> error;
  metaWriter_UpdateShardStatus : World -> string -> string -> string -> error;
  metaWriter_Join : World -> Context -> string -> string -> bool -> error;
  clusterState_NodeHostname : World -> string -> string * bool
}.

Definition logCall (c : Call) (w : World) : World :=
  {| store := store w; calls := calls w ++ [c] |}.

Definition invoke {A : Type} (c : Call) (result : World -> A) : M World A :=
  fun w => (result w, logCall c w).

Definition Authorize (h : Handler) (principal : option Principal)
  (verb resource : string) : M World error :=
  invoke (CallAuthorize principal verb resource)
         (fun w => Authorizer_Authorize h w principal verb resource).

Definition ReadOnlySchema : M World models.Schema :=
  invoke CallReadOnlySchema store.

Definition UpdateShardStatus_writer (h : Handler) (class shard status : string)
  : M World error :=
  invoke (CallUpdateShardStatus class shard status)
         (fun w => metaWriter_UpdateShardStatus h w class shard status).

Definition NodeHostname (h : Handler) (nodeID : string) : M World (string * bool) :=
  invoke (CallNodeHostname nodeID) (fun w => clusterState_NodeHostname h w nodeID).

Definition Join (h : Handler) (ctx : Context) (nodeID raftAddr : string) (voter : bool)
  : M World error :=
  invoke (CallJoin ctx nodeID raftAddr voter)
         (fun w => metaWriter_Join h w ctx nodeID raftAddr voter).

Definition getSchema : M World schema.Schema :=
  s <- ReadOnlySchema ;;
  ret {| schema.Objects := Some s |}.

Definition GetSchema (h : Handler) (principal : option Principal)
  : M World (schema.Schema * error) :=
  err <- Authorize h principal "list" "schema/*" ;;
  match err with
  | Some e => ret (schema.zero, Some e)
  | None =>
      s <- getSchema ;;
      ret (s, None)
  end.

Definition GetSchemaSkipAuth : M World schema.Schema := getSchema.

Definition UpdateShardStatus (h : Handler) (ctx : Context)
  (principal : option Principal) (class shard status : string) : M World error :=
  err <- Authorize h principal "update"
           ("schema/" +:+ class +:+ "/shards/" +:+ shard) ;;
  match err with
  | Some e => ret (Some e)
  | None => UpdateShardStatus_writer h class shard status
  end.

Section JoinNode.

(** [config.DefaultRaftPort] is declared in [usecases/config], which is not
    among the sources: the embedding takes the constant as a parameter. *)
Variable DefaultRaftPort : Z.

(** [strings.Split(nodeAddr, ":")[0]]: indexing an empty slice would panic,
    but the slice that [Split] returns for a non-empty separator always has a
    first element (lemma [Split_colon_first]), so the default is never used. *)
Definition JoinNode (h : Handler) (ctx : Context) (node nodePort : string)
  (voter : bool) : M World error :=
  r <- NodeHostname h node ;;
  let (nodeAddr, ok) := r in
  if negb ok then
    ret (Some (Errorf ("could not resolve addr for node id " +:+ node)))
  else
    let nodeAddr := default "" (strings.Split nodeAddr ":" !! 0) in
    let nodePort :=
      if String.eqb nodePort "" then fmt.Sprintf_d DefaultRaftPort else nodePort in
    Join h ctx node (nodeAddr +:+ ":" +:+ nodePort) voter.

End JoinNode.

(** The calls logged between two worlds. *)
Definition callsSince (w w' : World) : list Call :=
  drop (length (calls w)) (calls w').

(** Calls that reach the meta writer, that is, that propose to the log. *)
Definition isWriterCall (c : Call) : bool :=
  match c with
  | CallUpdateShardStatus _ _ _ => true
  | CallJoin _ _ _ _ => true
  | _ => false
  end.

End Handler.

(** The prefix of [s] before its first [':'], all of [s] when it has none:
    what "the substring before the first ':' character" says, independently of
    [strings.Split]. *)
Fixpoint beforeColon (s : string) : string :=
  match s with
  | EmptyString => EmptyString
  | String c rest =>
      if Ascii.eqb c ":"%char then EmptyString else String c (beforeColon rest)
  end.

(** What follows the first [':'] of [s]: the port of a [host:port] address. *)
Fixpoint afterColon (s : string) : string :=
  match s with
  | EmptyString => EmptyString
  | String c rest => if Ascii.eqb c ":"%char then rest else afterColon rest
  end.

(** ** Concrete worlds, used to run the embedded code *)

Module Scenario.

Import models.

Definition admin : option Principal :=
  Some {| Username := "admin"; Groups := ["ops"] |}.

Definition title : Property := {| Name := "title"; DataType := ["text"] |}.
Definition tags : Property := {| Name := "tags"; DataType := ["text"] |}.

Definition Author : Class := {| class := "Author"; Properties := [title] |}.
Definition Article : Class := {| class := "Article"; Properties := [title; tags] |}.

Definition snapshot : Schema := {| Classes := [Author; Article] |}.

Definition start : Manager.State :=
  {| Manager.ObjectSchema := snapshot; Manager.calls := [] |}.

(** Every collaborator succeeds. *)
Definition allowAll : Manager.Manager :=
  {| Manager.authorizer_Authorize := fun _ _ _ _ => None;
     Manager.saveSchema_result := fun _ _ => None;
     Manager.migrator_UpdatePropertyAddDataType := fun _ _ _ _ _ => None |}.

(** Saving the schema fails; the migrator would fail too, were it called. *)
Definition saveFails : Manager.Manager :=
  {| Manager.authorizer_Authorize := fun _ _ _ _ => None;
     Manager.saveSchema_result := fun _ _ => Some (Errorf "disk full");
     Manager.migrator_UpdatePropertyAddDataType :=
       fun _ _ _ _ _ => Some (Errorf "migrator down") |}.

(** The authorizer refuses everybody. *)
Definition denyAll : Manager.Manager :=
  {| Manager.authorizer_Authorize := fun _ _ _ _ => Some (Errorf "forbidden");
     Manager.saveSchema_result := fun _ _ => None;
     Manager.migrator_UpdatePropertyAddDataType := fun _ _ _ _ _ => None |}.

Definition world : Handler.World :=
  {| Handler.store := snapshot; Handler.calls := [] |}.

(** A cluster that knows one node, by its gossip address. *)
Definition cluster : Handler.Handler :=
  {| Handler.Authorizer_Authorize := fun _ _ _ _ => None;
     Handler.metaWriter_UpdateShardStatus := fun _ _ _ _ => None;
     Handler.metaWriter_Join := fun _ _ _ _ _ => None;
     Handler.clusterState_NodeHostname :=
       fun _ nodeID =>
         if String.eqb nodeID "node-1" then ("10.0.0.5:7946", true) else ("", false) |}.

(** The same cluster behind an authorizer that refuses everybody. *)
Definition closedCluster : Handler.Handler :=
  {| Handler.Authorizer_Authorize := fun _ _ _ _ => Some (Errorf "forbidden");
     Handler.metaWriter_UpdateShardStatus := fun _ _ _ _ => None;
     Handler.metaWriter_Join := fun _ _ _ _ _ => None;
     Handler.clusterState_NodeHostname := Handler.clusterState_NodeHostname cluster |}.

End Scenario.

(** ** Views of the schema used to state what a call preserves *)

Module ManagerView.

Import models Manager.

(** The pointer that the two lookups of [UpdatePropertyAddDataType] arrive
    at, if both succeed. *)
Definition resolve (s : Schema) (className propName : string) : option (nat * nat) :=
  match GetClassByName s className with
  | inl _ => None
  | inr c =>
      match GetPropertyByName s c propName with
      | inl _ => None
      | inr p => Some p
      end
  end.

(** The schema without its data types: class names in order, each with the
    names of its properties in order. *)
Definition skeleton (s : Schema) : list (string * list string) :=
  (fun c => (class c, Name <$> Properties c)) <$> Classes s.

End ManagerView.

(** A string without ['/']. *)
Definition slashFree (s : string) : Prop :=
  forall a b, s <> a +:+ "/" +:+ b.

(** ** usecases/schema/handler.go: [Handler.ShardsStatus] *)

Module HandlerShards.

Import models.

(** [models.ShardStatusGetResponse]; a [models.ShardStatusList] is a slice of
    them, and the [nil] slice is the empty list. *)
Record ShardStatusGetResponse : Type := {
  ShardName : string;
  Status : string
}.

Inductive Call : Type :=
| CallAuthorize (principal : option Principal) (verb resource : string)
| CallGetShardsStatus (class : string).

Record World : Type := {
  calls : list Call
}.

(** The two collaborators of [ShardsStatus]. *)
Record Handler : Type := {
  Authorizer_Authorize : World -> option Principal -> string -> string -> error;
  metaReader_GetShardsStatus : World -> string -> list ShardStatusGetResponse * error
}.

Definition logCall (c : Call) (w : World) : World :=
  {| calls := calls w ++ [c] |}.

Definition invoke {A : Type} (c : Call) (result : World -> A) : M World A :=
  fun w => (result w, logCall c w).

Definition Authorize (h : Handler) (principal : option Principal)
  (verb resource : string) : M World error :=
  invoke (CallAuthorize principal verb resource)
         (fun w => Authorizer_Authorize h w principal verb resource).

Definition GetShardsStatus (h : Handler) (class : string)
  : M World (list ShardStatusGetResponse * error) :=
  invoke (CallGetShardsStatus class) (fun w => metaReader_GetShardsStatus h w class).

Definition ShardsStatus (h : Handler) (ctx : Context) (principal : option Principal)
  (class : string) : M World (list ShardStatusGetResponse * error) :=
  err <- Authorize h principal "list" ("schema/" +:+ class +:+ "/shards") ;;
  match err with
  | Some e => ret ([], Some e)
  | None => GetShardsStatus h class
  end.

Definition callsSince (w w' : World) : list Call :=
  drop (length (calls w)) (calls w').

End HandlerShards.

Module ScenarioShards.

Import HandlerShards.

Definition world : World := {| calls := [] |}.

Definition shards : list ShardStatusGetResponse :=
  [ {| ShardName := "shard-0"; Status := "READY" |};
    {| ShardName := "shard-1"; Status := "READONLY" |} ].

(** Everybody may list; only [Article] has shards. *)
Definition open : Handler :=
  {| Authorizer_Authorize := fun _ _ _ _ => None;
     metaReader_GetShardsStatus :=
       fun _ class =>
         if String.eqb class "Article" then (shards, None)
         else ([], Some (Errorf "class not found")) |}.

Definition closed : Handler :=
  {| Authorizer_Authorize := fun _ _ _ _ => Some (Errorf "forbidden");
     metaReader_GetShardsStatus := metaReader_GetShardsStatus open |}.

End ScenarioShards.

Module ScenarioEdge.

(** A cluster state that answers every node with a port and no host. *)
Definition portOnly : Handler.Handler :=
  {| Handler.Authorizer_Authorize := fun _ _ _ _ => None;
     Handler.metaWriter_UpdateShardStatus := fun _ _ _ _ => None;
     Handler.metaWriter_Join := fun _ _ _ _ _ => None;
     Handler.clusterState_NodeHostname := fun _ _ => (":7946", true) |}.

End ScenarioEdge.

(** ** Lemmas on the lookups and on writing through a property pointer *)

Section ManagerLemmas.

Import models Manager.

Lemma dataTypeAlreadyContained_true haystack needle :
  dataTypeAlreadyContained haystack needle = true <-> needle ∈ haystack.
Proof.
  induction haystack as [|hay rest IH]; simpl.
  - split; [discriminate | intros H; inversion H].
  - destruct (String.eqb_spec hay needle) as [->|Hne].
    + split; [intros _; left | reflexivity].
    + rewrite IH. split; [intros H; now right|].
      intros H. apply elem_of_cons in H as [H|H]; [congruence | exact H].
Qed.

Lemma dataTypeAlreadyContained_false haystack needle :
  dataTypeAlreadyContained haystack needle = false <-> needle ∉ haystack.
Proof.
  rewrite <- dataTypeAlreadyContained_true.
  destruct (dataTypeAlreadyContained haystack needle); split; congruence.
Qed.

(** Altering an element without changing whether it satisfies [P] does not
    move the first match. *)
Lemma list_find_alter_pos {A : Type} (P : A -> Prop) `{!forall x, Decision (P x)}
  (f : A -> A) (l : list A) (i : nat) :
  (forall x, P (f x) <-> P x) ->
  fst <$> list_find P (alter f i l) = fst <$> list_find P l.
Proof.
  intros Hf. revert i. induction l as [|x l IH]; intros i; [reflexivity|].
  destruct i as [|i]; simpl.
  - pose proof (Hf x) as Hx.
    destruct (decide (P (f x))) as [H1|H1], (decide (P x)) as [H2|H2];
      try reflexivity; tauto.
  - destruct (decide (P x)); [reflexivity|].
    change (list_alter f i l) with (alter f i l).
    specialize (IH i).
    destruct (list_find P (alter f i l)) as [[? ?]|],
             (list_find P l) as [[? ?]|]; simpl in *; congruence.
Qed.

Lemma GetClassByName_inr s className i :
  GetClassByName s className = inr i ->
  exists c, Classes s !! i = Some c /\ class c = className.
Proof.
  unfold GetClassByName.
  destruct (list_find _ _) as [[k c]|] eqn:E; [|discriminate].
  intros [= <-]. apply list_find_Some in E as (? & ? & _). eauto.
Qed.

Lemma GetClassByName_store s className p v :
  GetClassByName (storeDataType s p v) className = GetClassByName s className.
Proof.
  unfold GetClassByName, storeDataType. simpl.
  pose proof (list_find_alter_pos (fun c => class c = className)
                (alterProperties (alter (setDataType v) p.2)) (Classes s) p.1) as H.
  specialize (H ltac:(reflexivity)).
  destruct (list_find _ (alter _ _ _)) as [[? ?]|],
           (list_find _ (Classes s)) as [[? ?]|]; simpl in H; congruence.
Qed.

Lemma GetPropertyByName_inr s c propName q :
  GetPropertyByName s c propName = inr q ->
  exists cl p, q = (c, snd q) /\ Classes s !! c = Some cl
               /\ Properties cl !! snd q = Some p /\ Name p = propName
               /\ list_find (fun p => Name p = propName) (Properties cl) = Some (snd q, p).
Proof.
  unfold GetPropertyByName, derefClass.
  destruct (Classes s !! c) as [cl|] eqn:Ec; [|discriminate].
  destruct (list_find _ _) as [[j p]|] eqn:E; [|discriminate].
  intros [= <-]. exists cl, p. simpl.
  pose proof E as E'. apply list_find_Some in E' as (? & ? & _). auto.
Qed.

(** After a store through the pointer that the lookups return, the lookups
    return the same pointer and the stored list is read back. *)
Lemma dataTypesOf_store s className propName c p v :
  GetClassByName s className = inr c ->
  GetPropertyByName s c propName = inr p ->
  dataTypesOf (storeDataType s p v) className propName = Some v.
Proof.
  intros Hc Hp. unfold dataTypesOf. rewrite GetClassByName_store, Hc.
  destruct (GetPropertyByName_inr _ _ _ _ Hp) as (cl & pr & Hq & Hcl & Hpr & _ & Hfind).
  destruct p as [c' j]. simpl in *. injection Hq as ->.
  assert (Hcl' : Classes (storeDataType s (c, j) v) !! c
                 = Some (alterProperties (alter (setDataType v) j) cl)).
  { unfold storeDataType. simpl. rewrite list_lookup_alter_eq, Hcl. reflexivity. }
  assert (Hget : GetPropertyByName (storeDataType s (c, j) v) c propName = inr (c, j)).
  { unfold GetPropertyByName, derefClass. rewrite Hcl'. simpl.
    pose proof (list_find_alter_pos (fun p => Name p = propName)
                  (setDataType v) (Properties cl) j ltac:(reflexivity)) as H.
    rewrite Hfind in H. simpl in H.
    destruct (list_find _ (alter _ _ _)) as [[? ?]|]; simpl in H; congruence. }
  rewrite Hget. unfold derefProperty, derefClass. simpl fst. simpl snd.
  rewrite Hcl'. simpl. rewrite list_lookup_alter_eq, Hpr. reflexivity.
Qed.

Lemma dataTypesOf_Some s className propName dts :
  dataTypesOf s className propName = Some dts ->
  exists c p pr, GetClassByName s className = inr c
                 /\ GetPropertyByName s c propName = inr p
                 /\ derefProperty s p = Some pr /\ DataType pr = dts.
Proof.
  unfold dataTypesOf.
  destruct (GetClassByName s className) as [|c] eqn:Hc; [discriminate|].
  destruct (GetPropertyByName s c propName) as [|p] eqn:Hp; [discriminate|].
  destruct (derefProperty s p) as [pr|] eqn:Hpr; [|discriminate].
  intros [= <-]. exists c, p, pr. auto.
Qed.

(** [dataTypesOf] reads the first property named [propName] of the first
    class named [className]. *)
Lemma dataTypesOf_first_match s className propName i c j p :
  Classes s !! i = Some c -> class c = className ->
  (forall k c', Classes s !! k = Some c' -> k < i -> class c' <> className) ->
  Properties c !! j = Some p -> Name p = propName ->
  (forall k p', Properties c !! k = Some p' -> k < j -> Name p' <> propName) ->
  dataTypesOf s className propName = Some (DataType p).
Proof.
  intros Hi Hc Hfirst Hj Hp Hfirst'.
  assert (Hfc : list_find (fun c => class c = className) (Classes s) = Some (i, c))
    by (apply list_find_Some; auto).
  assert (Hfp : list_find (fun p => Name p = propName) (Properties c) = Some (j, p))
    by (apply list_find_Some; auto).
  unfold dataTypesOf, GetClassByName. rewrite Hfc.
  unfold GetPropertyByName, derefProperty, derefClass. rewrite Hi, Hfp. simpl.
  rewrite Hi, Hj. reflexivity.
Qed.

(** With unique class names and unique property names, as the data model has
    them, any class of the snapshot and any of its properties are the ones
    that the lookups find. *)
Lemma dataTypesOf_unique_names s c p :
  NoDup (class <$> Classes s) -> NoDup (Name <$> Properties c) ->
  c ∈ Classes s -> p ∈ Properties c ->
  dataTypesOf s (class c) (Name p) = Some (DataType p).
Proof.
  intros Hnc Hnp Hc Hp.
  apply list_elem_of_lookup in Hc as [i Hi]. apply list_elem_of_lookup in Hp as [j Hj].
  apply (dataTypesOf_first_match s _ _ i c j p); try assumption; try reflexivity.
  - intros k c' Hk Hlt Heq.
    assert (k = i); [|lia].
    apply (NoDup_lookup _ _ _ (class c) Hnc); rewrite list_lookup_fmap.
    + rewrite Hk. simpl. congruence.
    + rewrite Hi. reflexivity.
  - intros k p' Hk Hlt Heq.
    assert (k = j); [|lia].
    apply (NoDup_lookup _ _ _ (Name p) Hnp); rewrite list_lookup_fmap.
    + rewrite Hk. simpl. congruence.
    + rewrite Hj. reflexivity.
Qed.

(** The property behind the pointer keeps its name and gets the stored
    list. *)
Lemma storeDataType_same s p v :
  derefProperty (storeDataType s p v) p = setDataType v <$> derefProperty s p.
Proof.
  destruct p as [i j].
  unfold derefProperty, derefClass, storeDataType. simpl.
  rewrite list_lookup_alter_eq.
  destruct (Classes s !! i) as [c|]; [|reflexivity]. simpl.
  apply list_lookup_alter_eq.
Qed.

Lemma dataTypesOf_withDataTypes s className propName dts v :
  dataTypesOf s className propName = Some dts ->
  dataTypesOf (withDataTypes s className propName v) className propName = Some v.
Proof.
  intros H. destruct (dataTypesOf_Some _ _ _ _ H) as (c & p & pr & Hc & Hp & _).
  unfold withDataTypes. rewrite Hc, Hp. eapply dataTypesOf_store; eassumption.
Qed.

(** The run of [UpdatePropertyAddDataType] for an authorized caller when class
    and property are found. *)
Lemma UpdatePropertyAddDataType_found m ctx principal className propName newDataType st dts :
  authorizer_Authorize m st principal "update" "schema/objects" = None ->
  dataTypesOf (ObjectSchema st) className propName = Some dts ->
  UpdatePropertyAddDataType m ctx principal className propName newDataType st =
    if dataTypeAlreadyContained dts newDataType then
      (None, logCall CallSchemaFor (logCall (authCall principal) st))
    else
      let st2 := stateAtSave principal className propName (dts ++ [newDataType]) st in
      let st3 := logCall (CallSaveSchema ctx) st2 in
      match saveSchema_result m st2 ctx with
      | Some _ => (None, st3)
      | None =>
          (migrator_UpdatePropertyAddDataType m st3 ctx className propName newDataType,
           logCall (CallMigratorUpdatePropertyAddDataType ctx className propName newDataType) st3)
      end.
Proof.
  intros Hauth H.
  destruct (dataTypesOf_Some _ _ _ _ H) as (c & p & pr & Hc & Hp & Hpr & Hdt).
  unfold UpdatePropertyAddDataType, bind, Authorize, SchemaFor, invoke. rewrite Hauth.
  simpl. rewrite Hc, Hp.
  unfold loadDataType, gets. simpl. rewrite Hpr, Hdt.
  destruct (dataTypeAlreadyContained dts newDataType); [reflexivity|].
  unfold stateAtSave, withDataTypes. rewrite Hc, Hp.
  unfold writeDataType, modify, saveSchema, migrate, invoke, logCall, authCall. simpl.
  rewrite <- !app_assoc. simpl.
  destruct (saveSchema_result m _ ctx); simpl; rewrite <- ?app_assoc; reflexivity.
Qed.

Lemma callsSince_app st st' l :
  calls st' = calls st ++ l -> callsSince st st' = l.
Proof.
  intros H. unfold callsSince. rewrite H. apply drop_app_length.
Qed.

(** A type that is already in the list: the call logs the authorization and
    the schema read, and nothing else happens. *)
Lemma UpdatePropertyAddDataType_contained m ctx principal className propName newDataType st dts :
  authorizer_Authorize m st principal "update" "schema/objects" = None ->
  dataTypesOf (ObjectSchema st) className propName = Some dts ->
  newDataType ∈ dts ->
  UpdatePropertyAddDataType m ctx principal className propName newDataType st =
    (None, logCall CallSchemaFor (logCall (authCall principal) st)).
Proof.
  intros Hauth H Hin.
  rewrite (UpdatePropertyAddDataType_found _ _ _ _ _ _ _ dts Hauth H).
  apply dataTypeAlreadyContained_true in Hin. rewrite Hin. reflexivity.
Qed.

Lemma count_occ_elem_of (l : list string) (x : string) :
  x ∈ l -> 1 <= count_occ string_dec l x.
Proof.
  intros H. apply list_elem_of_In in H.
  apply (count_occ_In string_dec) in H. lia.
Qed.

Lemma count_occ_not_elem_of (l : list string) (x : string) :
  x ∉ l -> count_occ string_dec l x = 0.
Proof.
  intros H. apply count_occ_not_In. rewrite <- list_elem_of_In. exact H.
Qed.

(** The state after one authorized call on a present property: the list has
    the type, occurring as often as before if it was there and once if not. *)
Lemma UpdatePropertyAddDataType_once m ctx principal className propName newDataType st dts :
  authorizer_Authorize m st principal "update" "schema/objects" = None ->
  dataTypesOf (ObjectSchema st) className propName = Some dts ->
  exists dts',
    dataTypesOf
      (ObjectSchema (snd (UpdatePropertyAddDataType m ctx principal className propName
                            newDataType st))) className propName = Some dts'
    /\ newDataType ∈ dts'
    /\ count_occ string_dec dts' newDataType
       = Nat.max 1 (count_occ string_dec dts newDataType).
Proof.
  intros Hauth H.
  rewrite (UpdatePropertyAddDataType_found _ _ _ _ _ _ _ dts Hauth H).
  destruct (dataTypeAlreadyContained dts newDataType) eqn:Hc.
  - apply dataTypeAlreadyContained_true in Hc.
    exists dts. simpl. repeat split; try assumption.
    pose proof (count_occ_elem_of _ _ Hc). lia.
  - apply dataTypeAlreadyContained_false in Hc.
    exists (dts ++ [newDataType]).
    assert (Hd : dataTypesOf
                   (withDataTypes (ObjectSchema st) className propName (dts ++ [newDataType]))
                   className propName = Some (dts ++ [newDataType]))
      by (eapply dataTypesOf_withDataTypes; eassumption).
    split; [|split].
    + simpl. destruct (saveSchema_result m _ ctx); simpl; exact Hd.
    + apply elem_of_app. right. apply list_elem_of_here.
    + rewrite count_occ_app, (count_occ_not_elem_of _ _ Hc). simpl.
      destruct (string_dec newDataType newDataType); [reflexivity | congruence].
Qed.

End ManagerLemmas.

(** ** Claims on [UpdatePropertyAddDataType] *)

Section ManagerClaims.

Import models Manager.

(** C1.  When the snapshot has class [className] with property [propName] and
    [newDataType] is already one of the property's data types (exact string
    equality), an authorized call returns [nil], leaves the schema, and so the
    property's list, as it was, and logs only the authorization and the schema
    read: neither [saveSchema] nor the migrator is called. *)
Theorem UpdatePropertyAddDataType_present_type_is_noop
  m ctx principal className propName newDataType st dts :
  authorizer_Authorize m st principal "update" "schema/objects" = None ->
  dataTypesOf (ObjectSchema st) className propName = Some dts ->
  newDataType ∈ dts ->
  exists st',
    UpdatePropertyAddDataType m ctx principal className propName newDataType st
      = (None, st')
    /\ ObjectSchema st' = ObjectSchema st
    /\ dataTypesOf (ObjectSchema st') className propName = Some dts
    /\ callsSince st st' = [authCall principal; CallSchemaFor]
    /\ Forall (fun c => isWrite c = false) (callsSince st st').
Proof.
  intros Hauth H Hin. eexists. split.
  - eapply UpdatePropertyAddDataType_contained; eassumption.
  - assert (Hcalls : callsSince st (logCall CallSchemaFor (logCall (authCall principal) st))
                     = [authCall principal; CallSchemaFor]).
    { apply callsSince_app. simpl. rewrite <- app_assoc. reflexivity. }
    rewrite Hcalls. repeat split; try assumption.
    repeat constructor.
Qed.

Lemma UpdatePropertyAddDataType_present_type_is_noop_witness :
  exists st',
    UpdatePropertyAddDataType Scenario.allowAll Background Scenario.admin
      "Article" "tags" "text" Scenario.start = (None, st')
    /\ ObjectSchema st' = ObjectSchema Scenario.start
    /\ dataTypesOf (ObjectSchema st') "Article" "tags" = Some ["text"]
    /\ callsSince Scenario.start st' = [authCall Scenario.admin; CallSchemaFor]
    /\ Forall (fun c => isWrite c = false) (callsSince Scenario.start st').
Proof.
  apply (UpdatePropertyAddDataType_present_type_is_noop
           Scenario.allowAll Background Scenario.admin "Article" "tags" "text"
           Scenario.start ["text"]).
  - reflexivity.
  - reflexivity.
  - apply list_elem_of_here.
Defined.

(** C3.  When the type was absent and has been appended, and [saveSchema] then
    returns an error, the call returns [nil] all the same; the log ends with
    the [saveSchema] call, so the migrator is not called.  The appended type
    stays in the in-memory schema. *)
Theorem UpdatePropertyAddDataType_save_error_is_dropped
  m ctx principal className propName newDataType st dts e :
  authorizer_Authorize m st principal "update" "schema/objects" = None ->
  dataTypesOf (ObjectSchema st) className propName = Some dts ->
  newDataType ∉ dts ->
  saveSchema_result m
    (stateAtSave principal className propName (dts ++ [newDataType]) st) ctx = Some e ->
  exists st',
    UpdatePropertyAddDataType m ctx principal className propName newDataType st
      = (None, st')
    /\ callsSince st st' = [authCall principal; CallSchemaFor; CallSaveSchema ctx]
    /\ (forall ctx' c p t,
          CallMigratorUpdatePropertyAddDataType ctx' c p t ∉ callsSince st st')
    /\ dataTypesOf (ObjectSchema st') className propName = Some (dts ++ [newDataType]).
Proof.
  intros Hauth H Hnin Hsave.
  rewrite (UpdatePropertyAddDataType_found _ _ _ _ _ _ _ dts Hauth H).
  apply dataTypeAlreadyContained_false in Hnin. rewrite Hnin. simpl.
  rewrite Hsave. eexists. split; [reflexivity|].
  assert (Hcalls : callsSince st
            (logCall (CallSaveSchema ctx)
               (stateAtSave principal className propName (dts ++ [newDataType]) st))
          = [authCall principal; CallSchemaFor; CallSaveSchema ctx]).
  { apply callsSince_app. simpl. rewrite <- app_assoc. reflexivity. }
  rewrite Hcalls. split; [reflexivity|]. split.
  - intros ctx' c p t Hin.
    repeat (apply elem_of_cons in Hin as [Hin|Hin]; [discriminate Hin|]).
    inversion Hin.
  - simpl. eapply dataTypesOf_withDataTypes; eassumption.
Qed.

Lemma UpdatePropertyAddDataType_save_error_is_dropped_witness :
  exists st',
    UpdatePropertyAddDataType Scenario.saveFails Background Scenario.admin
      "Article" "tags" "text[]" Scenario.start = (None, st')
    /\ callsSince Scenario.start st'
       = [authCall Scenario.admin; CallSchemaFor; CallSaveSchema Background]
    /\ (forall ctx' c p t,
          CallMigratorUpdatePropertyAddDataType ctx' c p t ∉ callsSince Scenario.start st')
    /\ dataTypesOf (ObjectSchema st') "Article" "tags" = Some (["text"] ++ ["text[]"]).
Proof.
  apply (UpdatePropertyAddDataType_save_error_is_dropped
           Scenario.saveFails Background Scenario.admin "Article" "tags" "text[]"
           Scenario.start ["text"] (Errorf "disk full")).
  - reflexivity.
  - reflexivity.
  - intros Hin. apply dataTypeAlreadyContained_true in Hin. discriminate Hin.
  - reflexivity.
Defined.

(** C6.  When the type is not yet in the property's list and [saveSchema]
    succeeds, the list afterwards is the old list with the type appended at
    the end, nothing else in the schema changes, the migrator is called after
    [saveSchema], and the call returns what the migrator returns. *)
Theorem UpdatePropertyAddDataType_appends_new_type
  m ctx principal className propName newDataType st dts :
  authorizer_Authorize m st principal "update" "schema/objects" = None ->
  dataTypesOf (ObjectSchema st) className propName = Some dts ->
  newDataType ∉ dts ->
  saveSchema_result m
    (stateAtSave principal className propName (dts ++ [newDataType]) st) ctx = None ->
  exists st',
    UpdatePropertyAddDataType m ctx principal className propName newDataType st
      = (migrator_UpdatePropertyAddDataType m
           (logCall (CallSaveSchema ctx)
              (stateAtSave principal className propName (dts ++ [newDataType]) st))
           ctx className propName newDataType, st')
    /\ dataTypesOf (ObjectSchema st') className propName = Some (dts ++ [newDataType])
    /\ ObjectSchema st'
       = withDataTypes (ObjectSchema st) className propName (dts ++ [newDataType])
    /\ callsSince st st'
       = [authCall principal; CallSchemaFor; CallSaveSchema ctx;
          CallMigratorUpdatePropertyAddDataType ctx className propName newDataType].
Proof.
  intros Hauth H Hnin Hsave.
  rewrite (UpdatePropertyAddDataType_found _ _ _ _ _ _ _ dts Hauth H).
  apply dataTypeAlreadyContained_false in Hnin. rewrite Hnin. simpl.
  rewrite Hsave. eexists. split; [reflexivity|]. simpl. split; [|split].
  - eapply dataTypesOf_withDataTypes; eassumption.
  - reflexivity.
  - apply callsSince_app. simpl. rewrite <- !app_assoc. reflexivity.
Qed.

Lemma UpdatePropertyAddDataType_appends_new_type_witness :
  exists st',
    UpdatePropertyAddDataType Scenario.allowAll Background Scenario.admin
      "Article" "tags" "text[]" Scenario.start = (None, st')
    /\ dataTypesOf (ObjectSchema st') "Article" "tags" = Some (["text"] ++ ["text[]"])
    /\ ObjectSchema st'
       = withDataTypes (ObjectSchema Scenario.start) "Article" "tags" (["text"] ++ ["text[]"])
    /\ callsSince Scenario.start st'
       = [authCall Scenario.admin; CallSchemaFor; CallSaveSchema Background;
          CallMigratorUpdatePropertyAddDataType Background "Article" "tags" "text[]"].
Proof.
  apply (UpdatePropertyAddDataType_appends_new_type
           Scenario.allowAll Background Scenario.admin "Article" "tags" "text[]"
           Scenario.start ["text"]).
  - reflexivity.
  - reflexivity.
  - intros Hin. apply dataTypeAlreadyContained_true in Hin. discriminate Hin.
  - reflexivity.
Defined.

(** C7.  For an authorized caller, when no class of the snapshot is named
    [className], or the class found under that name has no property named
    [propName], the call returns the not-found error of the failed lookup,
    the schema is unchanged and only the authorization and the schema read
    are logged: nothing is appended, saved or migrated. *)
Theorem UpdatePropertyAddDataType_not_found
  m ctx principal className propName newDataType st :
  authorizer_Authorize m st principal "update" "schema/objects" = None ->
  (forall c, c ∈ Classes (ObjectSchema st) -> class c <> className)
  \/ (exists c, firstClassNamed (ObjectSchema st) className = Some c
                /\ forall p, p ∈ Properties c -> Name p <> propName) ->
  exists e st',
    UpdatePropertyAddDataType m ctx principal className propName newDataType st
      = (Some e, st')
    /\ (e = ErrNoSuchClass className \/ e = ErrNoSuchProperty propName className)
    /\ ObjectSchema st' = ObjectSchema st
    /\ callsSince st st' = [authCall principal; CallSchemaFor].
Proof.
  intros Hauth Habs.
  assert (Hcalls : callsSince st (logCall CallSchemaFor (logCall (authCall principal) st))
                   = [authCall principal; CallSchemaFor]).
  { apply callsSince_app. simpl. rewrite <- app_assoc. reflexivity. }
  unfold UpdatePropertyAddDataType, bind, Authorize, SchemaFor, invoke.
  rewrite Hauth. simpl.
  destruct Habs as [Hnone | (c & Hfirst & Hprops)].
  - assert (Hfind : list_find (fun c => class c = className) (Classes (ObjectSchema st)) = None).
    { apply list_find_None, Forall_forall. exact Hnone. }
    unfold GetClassByName. rewrite Hfind.
    exists (ErrNoSuchClass className). eexists. split; [reflexivity|].
    rewrite <- Hcalls. auto.
  - unfold firstClassNamed in Hfirst. unfold GetClassByName.
    destruct (list_find _ (Classes (ObjectSchema st))) as [[i c']|] eqn:Hfind;
      [|discriminate Hfirst].
    simpl in Hfirst. injection Hfirst as ->.
    apply list_find_Some in Hfind as (Hi & Hname & _).
    unfold GetPropertyByName, derefClass. rewrite Hi.
    assert (Hp : list_find (fun p => Name p = propName) (Properties c) = None).
    { apply list_find_None, Forall_forall. exact Hprops. }
    rewrite Hp, Hname.
    exists (ErrNoSuchProperty propName className). eexists. split; [reflexivity|].
    rewrite <- Hcalls. auto.
Qed.

Lemma UpdatePropertyAddDataType_not_found_witness :
  (exists e st',
    UpdatePropertyAddDataType Scenario.allowAll Background Scenario.admin
      "Book" "tags" "text" Scenario.start = (Some e, st')
    /\ (e = ErrNoSuchClass "Book" \/ e = ErrNoSuchProperty "tags" "Book")
    /\ ObjectSchema st' = ObjectSchema Scenario.start
    /\ callsSince Scenario.start st' = [authCall Scenario.admin; CallSchemaFor])
  /\ (exists e st',
    UpdatePropertyAddDataType Scenario.allowAll Background Scenario.admin
      "Author" "tags" "text" Scenario.start = (Some e, st')
    /\ (e = ErrNoSuchClass "Author" \/ e = ErrNoSuchProperty "tags" "Author")
    /\ ObjectSchema st' = ObjectSchema Scenario.start
    /\ callsSince Scenario.start st' = [authCall Scenario.admin; CallSchemaFor]).
Proof.
  split.
  - apply (UpdatePropertyAddDataType_not_found
             Scenario.allowAll Background Scenario.admin "Book" "tags" "text"
             Scenario.start).
    + reflexivity.
    + left. intros c Hc.
      repeat (apply elem_of_cons in Hc as [->|Hc]; [discriminate|]).
      inversion Hc.
  - apply (UpdatePropertyAddDataType_not_found
             Scenario.allowAll Background Scenario.admin "Author" "tags" "text"
             Scenario.start).
    + reflexivity.
    + right. exists Scenario.Author. split; [reflexivity|].
      intros p Hp.
      repeat (apply elem_of_cons in Hp as [->|Hp]; [discriminate|]).
      inversion Hp.
Defined.

(** C2.  For an authorized principal and a class and property present in
    the snapshot, whose data-type list is a set (no type twice, as the data
    model has it), two invocations in a row with the same type end in the
    state that the first one reached: the second one returns [nil], changes
    nothing and logs only the authorization and the schema read (no write),
    and afterwards the type occurs exactly once in the property's list. *)
Theorem UpdatePropertyAddDataType_twice
  m ctx principal className propName newDataType st dts :
  (forall st0, authorizer_Authorize m st0 principal "update" "schema/objects" = None) ->
  dataTypesOf (ObjectSchema st) className propName = Some dts ->
  NoDup dts ->
  secondAddIsNoop 1 m ctx principal className propName newDataType st.
Proof.
  intros Hauth H Hnd.
  unfold secondAddIsNoop, addTwice.
  destruct (UpdatePropertyAddDataType_once m ctx principal className propName
              newDataType st dts (Hauth st) H) as (dts' & Hd & Hin & Hcount).
  set (st1 := snd (UpdatePropertyAddDataType m ctx principal className propName
                     newDataType st)) in *.
  rewrite (UpdatePropertyAddDataType_contained m ctx principal className propName
             newDataType st1 dts' (Hauth st1) Hd Hin).
  split; [reflexivity|]. split; [reflexivity|]. split.
  - apply callsSince_app. simpl. rewrite <- app_assoc. reflexivity.
  - exists dts'. split; [exact Hd|].
    pose proof (proj1 (NoDup_count_occ string_dec dts)
                  (proj1 (NoDup_ListNoDup dts) Hnd) newDataType) as Hle.
    rewrite Hcount. lia.
Qed.

Lemma UpdatePropertyAddDataType_twice_witness :
  secondAddIsNoop 1
    Scenario.allowAll Background Scenario.admin "Article" "tags" "text[]" Scenario.start.
Proof.
  apply (UpdatePropertyAddDataType_twice
           Scenario.allowAll Background Scenario.admin "Article" "tags" "text[]"
           Scenario.start ["text"]).
  - intros st0. reflexivity.
  - reflexivity.
  - apply NoDup_singleton.
Defined.

End ManagerClaims.

(** ** The embedded code on concrete inputs *)

Example Split_examples :
  strings.Split "10.0.0.5:7946" ":" = ["10.0.0.5"; "7946"]
  /\ strings.Split "host" ":" = ["host"]
  /\ strings.Split ":a::b" ":" = [""; "a"; ""; "b"]
  /\ strings.Split "a--b--" "--" = ["a"; "b"; ""]
  /\ strings.Split "" ":" = [""].
Proof. repeat split; reflexivity. Qed.

Example Sprintf_d_examples :
  fmt.Sprintf_d 8300 = "8300" /\ fmt.Sprintf_d 0 = "0" /\ fmt.Sprintf_d (-7) = "-7".
Proof. repeat split; reflexivity. Qed.

(** The scenario of the data-type add: ["text"] is already there, ["text[]"]
    is appended. *)
Example Article_tags_scenario :
  let run t st :=
    Manager.UpdatePropertyAddDataType Scenario.allowAll Background Scenario.admin
      "Article" "tags" t st in
  let '(err1, st1) := run "text" Scenario.start in
  let '(err2, st2) := run "text[]" st1 in
  err1 = None
  /\ Manager.dataTypesOf (Manager.ObjectSchema st1) "Article" "tags" = Some ["text"]
  /\ err2 = None
  /\ Manager.dataTypesOf (Manager.ObjectSchema st2) "Article" "tags"
     = Some ["text"; "text[]"]
  /\ Manager.dataTypesOf (Manager.ObjectSchema st2) "Article" "title" = Some ["text"]
  /\ Manager.dataTypesOf (Manager.ObjectSchema st2) "Author" "title" = Some ["text"].
Proof. vm_compute. repeat split; reflexivity. Qed.

Example JoinNode_example :
  fst (Handler.JoinNode 8300 Scenario.cluster Background "node-1" "" true Scenario.world)
    = None
  /\ Handler.calls
       (snd (Handler.JoinNode 8300 Scenario.cluster Background "node-1" "" true
               Scenario.world))
     = [Handler.CallNodeHostname "node-1";
        Handler.CallJoin Background "node-1" "10.0.0.5:8300" true].
Proof. split; reflexivity. Qed.

(** ** Lemmas on [strings.Split] at the separator [":"] *)

Section SplitLemmas.

Import strings.

Lemma Index_colon_cons c rest :
  Index (String c rest) ":" =
    if Ascii.eqb c ":"%char then Some 0 else S <$> Index rest ":".
Proof.
  cbn [Index String.prefix].
  destruct (ascii_dec ":" c) as [<-|Hne].
  - destruct rest; reflexivity.
  - destruct (Ascii.eqb_spec c ":"%char) as [->|_]; [congruence | reflexivity].
Qed.

(** Cutting at the first occurrence of [":"] gives [beforeColon]. *)
Lemma sliceTo_Index_colon s :
  match Index s ":" with
  | Some m => sliceTo m s
  | None => s
  end = beforeColon s.
Proof.
  induction s as [|c rest IH]; [reflexivity|].
  rewrite Index_colon_cons. simpl beforeColon.
  destruct (Ascii.eqb c ":"%char); [reflexivity|].
  destruct (Index rest ":") as [m|]; simpl in *; congruence.
Qed.

Lemma Count_colon_pos s m :
  Index s ":" = Some m -> exists n, Count s ":" = S n.
Proof.
  intros H. unfold Count. destruct s as [|c rest]; [discriminate H|].
  cbn [String.length countLoop]. rewrite H. eauto.
Qed.

(** [strings.Split(s, ":")] always has a first element, and it is
    [beforeColon s]. *)
Lemma Split_colon_first s : Split s ":" !! 0 = Some (beforeColon s).
Proof.
  unfold Split. simpl String.eqb. cbv iota.
  rewrite <- sliceTo_Index_colon.
  destruct (Index s ":") as [m|] eqn:E.
  - destruct (Count_colon_pos s m E) as [n ->]. simpl. rewrite E. reflexivity.
  - destruct (Count s ":"); simpl; rewrite ?E; reflexivity.
Qed.

Lemma append_String c (a b : string) : String c a +:+ b = String c (a +:+ b).
Proof. reflexivity. Qed.

Lemma append_Empty (b : string) : "" +:+ b = b.
Proof. reflexivity. Qed.

Lemma beforeColon_decompose s :
  s = beforeColon s \/ exists rest, s = beforeColon s +:+ ":" +:+ rest.
Proof.
  induction s as [|c rest IH]; [left; reflexivity|].
  simpl. destruct (Ascii.eqb_spec c ":"%char) as [->|Hne].
  - right. exists rest. reflexivity.
  - destruct IH as [IH | [r IH]].
    + left. f_equal. exact IH.
    + right. exists r. rewrite append_String. f_equal. exact IH.
Qed.

Lemma beforeColon_no_colon s a b : beforeColon s <> a +:+ ":" +:+ b.
Proof.
  revert a. induction s as [|c rest IH]; intros a.
  - destruct a; discriminate.
  - simpl. destruct (Ascii.eqb_spec c ":"%char) as [->|Hne].
    + destruct a; discriminate.
    + destruct a as [|c' a]; rewrite ?append_String, ?append_Empty.
      * intros [= Hc _]. congruence.
      * intros [= _ H]. exact (IH a H).
Qed.

Lemma afterColon_host_port host port :
  afterColon (beforeColon host +:+ ":" +:+ port) = port.
Proof.
  induction host as [|c rest IH]; [reflexivity|].
  simpl. destruct (Ascii.eqb c ":"%char) eqn:E; [reflexivity|].
  rewrite append_String. simpl. rewrite E. exact IH.
Qed.

End SplitLemmas.

(** ** Claims on the handler *)

Section HandlerClaims.

Import models Handler.

Lemma handler_callsSince_app w w' l :
  calls w' = calls w ++ l -> callsSince w w' = l.
Proof.
  intros H. unfold callsSince. rewrite H. apply drop_app_length.
Qed.

(** The run of [JoinNode] for a node that resolves. *)
Lemma JoinNode_resolved DefaultRaftPort h ctx node nodePort voter w addr :
  clusterState_NodeHostname h w node = (addr, true) ->
  JoinNode DefaultRaftPort h ctx node nodePort voter w =
    let raftAddr :=
      beforeColon addr +:+ ":" +:+
        (if String.eqb nodePort "" then fmt.Sprintf_d DefaultRaftPort else nodePort) in
    let w1 := logCall (CallNodeHostname node) w in
    (metaWriter_Join h w1 ctx node raftAddr voter,
     logCall (CallJoin ctx node raftAddr voter) w1).
Proof.
  intros H. unfold JoinNode, bind, NodeHostname, Join, invoke.
  rewrite H. cbn [negb]. rewrite Split_colon_first. reflexivity.
Qed.

(** C5.  When [NodeHostname] does not resolve the node ([ok = false]),
    [JoinNode] returns the error "could not resolve addr for node id <node>",
    and the only collaborator call is the lookup: [Join] is never called. *)
Theorem JoinNode_unresolved_fails_before_Join
  DefaultRaftPort h ctx node nodePort voter w addr :
  clusterState_NodeHostname h w node = (addr, false) ->
  exists w',
    JoinNode DefaultRaftPort h ctx node nodePort voter w
      = (Some (Errorf ("could not resolve addr for node id " +:+ node)), w')
    /\ callsSince w w' = [CallNodeHostname node]
    /\ (forall ctx' n a v, CallJoin ctx' n a v ∉ callsSince w w')
    /\ store w' = store w.
Proof.
  intros H. unfold JoinNode, bind, NodeHostname, invoke. rewrite H. cbn [negb].
  eexists. split; [reflexivity|].
  assert (Hcalls : callsSince w (logCall (CallNodeHostname node) w) = [CallNodeHostname node])
    by (apply handler_callsSince_app; reflexivity).
  rewrite Hcalls. repeat split.
  intros ctx' n a v Hin. apply elem_of_cons in Hin as [Hin|Hin]; [discriminate Hin|].
  inversion Hin.
Qed.

Lemma JoinNode_unresolved_fails_before_Join_witness :
  exists w',
    JoinNode 8300 Scenario.cluster Background "node-9" "" true Scenario.world
      = (Some (Errorf ("could not resolve addr for node id " +:+ "node-9")), w')
    /\ callsSince Scenario.world w' = [CallNodeHostname "node-9"]
    /\ (forall ctx' n a v, CallJoin ctx' n a v ∉ callsSince Scenario.world w')
    /\ store w' = store Scenario.world.
Proof.
  apply (JoinNode_unresolved_fails_before_Join
           8300 Scenario.cluster Background "node-9" "" true Scenario.world "").
  reflexivity.
Defined.

(** C8.  For a node that resolves, [Join] is called once, with an address
    whose port (what follows its first [':']) is the decimal rendering of the
    default raft port constant when [nodePort] is empty, and [nodePort]
    itself otherwise. *)
Theorem JoinNode_port_default_or_given
  DefaultRaftPort h ctx node nodePort voter w addr :
  clusterState_NodeHostname h w node = (addr, true) ->
  exists raftAddr,
    callsSince w (snd (JoinNode DefaultRaftPort h ctx node nodePort voter w))
      = [CallNodeHostname node; CallJoin ctx node raftAddr voter]
    /\ (nodePort = "" -> afterColon raftAddr = fmt.Sprintf_d DefaultRaftPort)
    /\ (nodePort <> "" -> afterColon raftAddr = nodePort).
Proof.
  intros H. rewrite (JoinNode_resolved _ _ _ _ _ _ _ _ H). cbv zeta.
  eexists. split; [|split].
  - apply handler_callsSince_app. simpl. rewrite <- app_assoc. reflexivity.
  - intros ->. rewrite afterColon_host_port. reflexivity.
  - intros Hne. rewrite afterColon_host_port.
    destruct (String.eqb_spec nodePort ""); [contradiction | reflexivity].
Qed.

Lemma JoinNode_port_default_or_given_witness :
  (exists raftAddr,
    callsSince Scenario.world
      (snd (JoinNode 8300 Scenario.cluster Background "node-1" "" true Scenario.world))
      = [CallNodeHostname "node-1"; CallJoin Background "node-1" raftAddr true]
    /\ ("" = "" -> afterColon raftAddr = fmt.Sprintf_d 8300)
    /\ ("" <> "" -> afterColon raftAddr = ""))
  /\ (exists raftAddr,
    callsSince Scenario.world
      (snd (JoinNode 8300 Scenario.cluster Background "node-1" "9000" false Scenario.world))
      = [CallNodeHostname "node-1"; CallJoin Background "node-1" raftAddr false]
    /\ ("9000" = "" -> afterColon raftAddr = fmt.Sprintf_d 8300)
    /\ ("9000" <> "" -> afterColon raftAddr = "9000")).
Proof.
  split.
  - apply (JoinNode_port_default_or_given
             8300 Scenario.cluster Background "node-1" "" true Scenario.world
             "10.0.0.5:7946").
    reflexivity.
  - apply (JoinNode_port_default_or_given
             8300 Scenario.cluster Background "node-1" "9000" false Scenario.world
             "10.0.0.5:7946").
    reflexivity.
Defined.

(** C10.  For a node that resolves to [addr], the address given to [Join] is
    [beforeColon addr], then [":"], then the chosen port.  [beforeColon addr]
    holds no [':'] and is all of [addr] or what precedes its first [':']: a
    port inside [addr] is dropped. *)
Theorem JoinNode_address_drops_resolved_port
  DefaultRaftPort h ctx node nodePort voter w addr :
  clusterState_NodeHostname h w node = (addr, true) ->
  let port := if String.eqb nodePort "" then fmt.Sprintf_d DefaultRaftPort else nodePort in
  let w1 := logCall (CallNodeHostname node) w in
  JoinNode DefaultRaftPort h ctx node nodePort voter w
    = (metaWriter_Join h w1 ctx node (beforeColon addr +:+ ":" +:+ port) voter,
       logCall (CallJoin ctx node (beforeColon addr +:+ ":" +:+ port) voter) w1)
  /\ strings.Split addr ":" !! 0 = Some (beforeColon addr)
  /\ (addr = beforeColon addr \/ exists rest, addr = beforeColon addr +:+ ":" +:+ rest)
  /\ (forall a b, beforeColon addr <> a +:+ ":" +:+ b).
Proof.
  intros H port w1. split; [|split; [|split]].
  - apply (JoinNode_resolved _ _ _ _ _ _ _ _ H).
  - apply Split_colon_first.
  - apply beforeColon_decompose.
  - apply beforeColon_no_colon.
Qed.

Lemma JoinNode_address_drops_resolved_port_witness :
  JoinNode 8300 Scenario.cluster Background "node-1" "" true Scenario.world
    = (None,
       {| store := Scenario.snapshot;
          calls := [CallNodeHostname "node-1";
                    CallJoin Background "node-1" "10.0.0.5:8300" true] |})
  /\ strings.Split "10.0.0.5:7946" ":" !! 0 = Some "10.0.0.5".
Proof.
  destruct (JoinNode_address_drops_resolved_port
              8300 Scenario.cluster Background "node-1" "" true Scenario.world
              "10.0.0.5:7946" eq_refl) as (Hrun & Hsplit & _).
  split; [exact Hrun | exact Hsplit].
Defined.

(** C9.  For a principal that the authorizer accepts, [GetSchema] returns,
    with a [nil] error, the value that [GetSchemaSkipAuth] returns: the result
    of [ReadOnlySchema] as the [Objects] of a [schema.Schema].  Neither call
    changes the store. *)
Theorem GetSchema_authorized_equals_GetSchemaSkipAuth h principal w :
  Authorizer_Authorize h w principal "list" "schema/*" = None ->
  fst (GetSchema h principal w) = (fst (GetSchemaSkipAuth w), None)
  /\ fst (GetSchemaSkipAuth w) = {| schema.Objects := Some (fst (ReadOnlySchema w)) |}
  /\ store (snd (GetSchema h principal w)) = store w
  /\ store (snd (GetSchemaSkipAuth w)) = store w.
Proof.
  intros H. unfold GetSchema, GetSchemaSkipAuth, getSchema, bind, Authorize,
    ReadOnlySchema, invoke, ret.
  rewrite H. simpl. auto.
Qed.

Lemma GetSchema_authorized_equals_GetSchemaSkipAuth_witness :
  fst (GetSchema Scenario.cluster Scenario.admin Scenario.world)
    = (fst (GetSchemaSkipAuth Scenario.world), None)
  /\ fst (GetSchemaSkipAuth Scenario.world)
     = {| schema.Objects := Some (fst (ReadOnlySchema Scenario.world)) |}
  /\ store (snd (GetSchema Scenario.cluster Scenario.admin Scenario.world))
     = store Scenario.world
  /\ store (snd (GetSchemaSkipAuth Scenario.world)) = store Scenario.world.
Proof.
  apply (GetSchema_authorized_equals_GetSchemaSkipAuth
           Scenario.cluster Scenario.admin Scenario.world).
  reflexivity.
Defined.

End HandlerClaims.

(** ** Authorization comes first, in both files *)

(** C4.  When the authorizer returns an error for the caller's principal,
    [UpdatePropertyAddDataType] and [Handler.UpdateShardStatus] return that
    very error, and the authorization request is the only collaborator call
    they make: the schema is neither read nor changed, nothing is saved or
    migrated, and the meta writer is not called. *)
Theorem authorization_error_short_circuits :
  (forall m ctx principal className propName newDataType st e,
      Manager.authorizer_Authorize m st principal "update" "schema/objects" = Some e ->
      exists st',
        Manager.UpdatePropertyAddDataType m ctx principal className propName newDataType st
          = (Some e, st')
        /\ Manager.ObjectSchema st' = Manager.ObjectSchema st
        /\ Manager.callsSince st st' = [Manager.authCall principal])
  /\ (forall h ctx principal class shard status w e,
        Handler.Authorizer_Authorize h w principal "update"
          ("schema/" +:+ class +:+ "/shards/" +:+ shard) = Some e ->
        exists w',
          Handler.UpdateShardStatus h ctx principal class shard status w = (Some e, w')
          /\ Handler.store w' = Handler.store w
          /\ Handler.callsSince w w'
             = [Handler.CallAuthorize principal "update"
                  ("schema/" +:+ class +:+ "/shards/" +:+ shard)]
          /\ Forall (fun c => Handler.isWriterCall c = false) (Handler.callsSince w w')).
Proof.
  split.
  - intros m ctx principal className propName newDataType st e H.
    unfold Manager.UpdatePropertyAddDataType, bind, Manager.Authorize, Manager.invoke.
    rewrite H. eexists. split; [reflexivity|]. split; [reflexivity|].
    apply callsSince_app. reflexivity.
  - intros h ctx principal class shard status w e H.
    unfold Handler.UpdateShardStatus, bind, Handler.Authorize, Handler.invoke.
    rewrite H. eexists. split; [reflexivity|]. split; [reflexivity|].
    assert (Hcalls : Handler.callsSince w
              (Handler.logCall
                 (Handler.CallAuthorize principal "update"
                    ("schema/" +:+ class +:+ "/shards/" +:+ shard)) w)
            = [Handler.CallAuthorize principal "update"
                 ("schema/" +:+ class +:+ "/shards/" +:+ shard)])
      by (apply handler_callsSince_app; reflexivity).
    rewrite Hcalls. split; [reflexivity|]. repeat constructor.
Qed.

Lemma authorization_error_short_circuits_witness :
  (exists st',
      Manager.UpdatePropertyAddDataType Scenario.denyAll Background Scenario.admin
        "Article" "tags" "text[]" Scenario.start = (Some (Errorf "forbidden"), st')
      /\ Manager.ObjectSchema st' = Manager.ObjectSchema Scenario.start
      /\ Manager.callsSince Scenario.start st' = [Manager.authCall Scenario.admin])
  /\ (exists w',
        Handler.UpdateShardStatus Scenario.closedCluster Background Scenario.admin
          "Article" "shard-0" "READONLY" Scenario.world = (Some (Errorf "forbidden"), w')
        /\ Handler.store w' = Handler.store Scenario.world
        /\ Handler.callsSince Scenario.world w'
           = [Handler.CallAuthorize Scenario.admin "update"
                ("schema/" +:+ "Article" +:+ "/shards/" +:+ "shard-0")]
        /\ Forall (fun c => Handler.isWriterCall c = false)
             (Handler.callsSince Scenario.world w')).
Proof.
  split.
  - apply (proj1 authorization_error_short_circuits
             Scenario.denyAll Background Scenario.admin "Article" "tags" "text[]"
             Scenario.start (Errorf "forbidden")).
    reflexivity.
  - apply (proj2 authorization_error_short_circuits
             Scenario.closedCluster Background Scenario.admin
             "Article" "shard-0" "READONLY" Scenario.world (Errorf "forbidden")).
    reflexivity.
Defined.

(** ** More on [UpdatePropertyAddDataType]: every run, whatever the input *)

Section ManagerRuns.

Import models Manager ManagerView.

(** A store through a property pointer does not change what a property lookup
    returns, found or not. *)
Lemma GetPropertyByName_store s p v c propName :
  GetPropertyByName (storeDataType s p v) c propName = GetPropertyByName s c propName.
Proof.
  destruct p as [i j]. unfold GetPropertyByName, derefClass, storeDataType. simpl.
  destruct (decide (i = c)) as [->|Hne].
  - rewrite list_lookup_alter_eq.
    destruct (Classes s !! c) as [cl|]; [|reflexivity]. simpl.
    pose proof (list_find_alter_pos (fun p => Name p = propName)
                  (setDataType v) (Properties cl) j ltac:(reflexivity)) as H.
    destruct (list_find _ (alter _ _ _)) as [[? ?]|],
             (list_find _ (Properties cl)) as [[? ?]|]; simpl in H; congruence.
  - rewrite list_lookup_alter_ne by exact Hne. reflexivity.
Qed.

Lemma resolve_store s p v className propName :
  resolve (storeDataType s p v) className propName = resolve s className propName.
Proof.
  unfold resolve. rewrite GetClassByName_store.
  destruct (GetClassByName s className); [reflexivity|].
  rewrite GetPropertyByName_store. reflexivity.
Qed.

Lemma skeleton_store s p v : skeleton (storeDataType s p v) = skeleton s.
Proof.
  destruct p as [i j]. unfold skeleton, storeDataType. simpl.
  apply list_eq. intros k. rewrite !list_lookup_fmap.
  destruct (decide (i = k)) as [->|Hne].
  - rewrite list_lookup_alter_eq.
    destruct (Classes s !! k) as [cl|]; [|reflexivity]. simpl. f_equal. f_equal.
    apply list_eq. intros n. rewrite !list_lookup_fmap.
    destruct (decide (j = n)) as [->|Hn].
    + rewrite list_lookup_alter_eq. destruct (Properties cl !! n); reflexivity.
    + rewrite list_lookup_alter_ne by exact Hn. reflexivity.
  - rewrite list_lookup_alter_ne by exact Hne. reflexivity.
Qed.

(** A pointer that the lookups return points to a property. *)
Lemma resolve_Some s className propName p :
  resolve s className propName = Some p ->
  exists pr, derefProperty s p = Some pr
             /\ dataTypesOf s className propName = Some (DataType pr)
             /\ withDataTypes s className propName
                = (fun v => storeDataType s p v).
Proof.
  unfold resolve, dataTypesOf, withDataTypes.
  destruct (GetClassByName s className) as [|c]; [discriminate|].
  destruct (GetPropertyByName s c propName) as [|q] eqn:Hq; [discriminate|].
  intros [= ->].
  destruct (GetPropertyByName_inr _ _ _ _ Hq) as (cl & pr & Hp & Hcl & Hpr & _).
  exists pr. unfold derefProperty, derefClass. rewrite Hp. simpl. rewrite Hcl, Hpr.
  auto.
Qed.

(** The three ways a run can go: refused, not found, found. *)
Lemma UpdatePropertyAddDataType_cases m ctx principal className propName newDataType st :
  (exists e,
      authorizer_Authorize m st principal "update" "schema/objects" = Some e
      /\ UpdatePropertyAddDataType m ctx principal className propName newDataType st
         = (Some e, logCall (authCall principal) st))
  \/ (authorizer_Authorize m st principal "update" "schema/objects" = None
      /\ resolve (ObjectSchema st) className propName = None
      /\ exists e,
          UpdatePropertyAddDataType m ctx principal className propName newDataType st
          = (Some e, logCall CallSchemaFor (logCall (authCall principal) st)))
  \/ (authorizer_Authorize m st principal "update" "schema/objects" = None
      /\ exists p pr,
          resolve (ObjectSchema st) className propName = Some p
          /\ derefProperty (ObjectSchema st) p = Some pr
          /\ dataTypesOf (ObjectSchema st) className propName = Some (DataType pr)
          /\ withDataTypes (ObjectSchema st) className propName
               (DataType pr ++ [newDataType])
             = storeDataType (ObjectSchema st) p (DataType pr ++ [newDataType])).
Proof.
  destruct (authorizer_Authorize m st principal "update" "schema/objects") as [e|] eqn:Hauth.
  - left. exists e. split; [reflexivity|].
    unfold UpdatePropertyAddDataType, bind, Authorize, invoke. rewrite Hauth. reflexivity.
  - right. destruct (resolve (ObjectSchema st) className propName) as [p|] eqn:Hres.
    + right. split; [reflexivity|].
      destruct (resolve_Some _ _ _ _ Hres) as (pr & Hpr & Hd & Hw).
      exists p, pr. rewrite Hw. auto.
    + left. split; [reflexivity|]. split; [reflexivity|].
      unfold UpdatePropertyAddDataType, bind, Authorize, SchemaFor, invoke.
      rewrite Hauth. simpl. unfold resolve in Hres.
      destruct (GetClassByName (ObjectSchema st) className) as [e|c]; [eauto|].
      destruct (GetPropertyByName (ObjectSchema st) c propName) as [e|q];
        [eauto | discriminate Hres].
Qed.

(** The schema after a run: as before, or with the new type stored behind the
    pointer of the addressed property, which did not hold it. *)
Lemma UpdatePropertyAddDataType_final_schema m ctx principal className propName newDataType st :
  let s' := ObjectSchema
              (snd (UpdatePropertyAddDataType m ctx principal className propName
                      newDataType st)) in
  s' = ObjectSchema st
  \/ exists p pr,
      resolve (ObjectSchema st) className propName = Some p
      /\ derefProperty (ObjectSchema st) p = Some pr
      /\ (newDataType ∉ DataType pr)
      /\ s' = storeDataType (ObjectSchema st) p (DataType pr ++ [newDataType]).
Proof.
  cbv zeta.
  destruct (UpdatePropertyAddDataType_cases m ctx principal className propName
              newDataType st)
    as [(e & _ & ->) | [(_ & _ & e & ->) | (Hauth & p & pr & Hres & Hpr & Hd & Hw)]];
    [left; reflexivity | left; reflexivity |].
  rewrite (UpdatePropertyAddDataType_found _ _ _ _ _ _ _ _ Hauth Hd).
  destruct (dataTypeAlreadyContained (DataType pr) newDataType) eqn:Hc;
    [left; reflexivity|].
  apply dataTypeAlreadyContained_false in Hc.
  right. exists p, pr. repeat (split; [assumption|]).
  cbv zeta. destruct (saveSchema_result m _ ctx); simpl; exact Hw.
Qed.

(** What a run does to the list of the addressed property. *)
Lemma UpdatePropertyAddDataType_addressed m ctx principal className propName newDataType st dts :
  dataTypesOf (ObjectSchema st) className propName = Some dts ->
  exists dts',
    dataTypesOf
      (ObjectSchema (snd (UpdatePropertyAddDataType m ctx principal className propName
                            newDataType st))) className propName = Some dts'
    /\ (dts' = dts \/ ((newDataType ∉ dts) /\ dts' = dts ++ [newDataType])).
Proof.
  intros Hd.
  destruct (UpdatePropertyAddDataType_final_schema m ctx principal className propName
              newDataType st) as [-> | (p & pr & Hres & Hp & Hnin & ->)].
  - exists dts. auto.
  - destruct (resolve_Some _ _ _ _ Hres) as (pr' & Hp' & Hd' & Hw).
    assert (pr' = pr) as -> by congruence.
    assert (DataType pr = dts) as <- by congruence.
    exists (DataType pr ++ [newDataType]). split; [|right; auto].
    change (storeDataType (ObjectSchema st) p (DataType pr ++ [newDataType]))
      with ((fun v => storeDataType (ObjectSchema st) p v) (DataType pr ++ [newDataType])).
    rewrite <- Hw. eapply dataTypesOf_withDataTypes. exact Hd.
Qed.

End ManagerRuns.

(** ** Further properties of [UpdatePropertyAddDataType] *)

Section ManagerProperties.

Import models Manager ManagerView.

(** X1.  [dataTypeAlreadyContained] decides membership under exact string
    equality: it answers [true] exactly when some element of the haystack is
    the needle, and so [false] on the empty haystack and [true] once the
    needle has been appended. *)
Theorem dataTypeAlreadyContained_decides_membership haystack needle :
  (dataTypeAlreadyContained haystack needle = true <-> needle ∈ haystack)
  /\ dataTypeAlreadyContained [] needle = false
  /\ dataTypeAlreadyContained (haystack ++ [needle]) needle = true.
Proof.
  split; [apply dataTypeAlreadyContained_true|]. split; [reflexivity|].
  apply dataTypeAlreadyContained_true, elem_of_app. right. apply list_elem_of_here.
Qed.

(** X2.  Whatever the input, the collaborator calls of one run are one of
    four sequences: the authorization alone (refused: its error is returned);
    authorization and schema read (not found, or type already there);
    these and [saveSchema] (save failed: [nil] is returned); these and the
    migrator (its result is returned).  In the first two the schema is
    unchanged.  So nothing is read before the authorization, [saveSchema] is
    called at most once, and the migrator only right after it. *)
Theorem UpdatePropertyAddDataType_call_sequences
  m ctx principal className propName newDataType st :
  let '(r, st') :=
    UpdatePropertyAddDataType m ctx principal className propName newDataType st in
  (callsSince st st' = [authCall principal]
   /\ r = authorizer_Authorize m st principal "update" "schema/objects"
   /\ r <> None /\ ObjectSchema st' = ObjectSchema st)
  \/ (callsSince st st' = [authCall principal; CallSchemaFor]
      /\ ObjectSchema st' = ObjectSchema st)
  \/ (callsSince st st' = [authCall principal; CallSchemaFor; CallSaveSchema ctx]
      /\ r = None)
  \/ (exists st3,
        callsSince st st'
        = [authCall principal; CallSchemaFor; CallSaveSchema ctx;
           CallMigratorUpdatePropertyAddDataType ctx className propName newDataType]
        /\ r = migrator_UpdatePropertyAddDataType m st3 ctx className propName newDataType
        /\ callsSince st st3 = [authCall principal; CallSchemaFor; CallSaveSchema ctx]).
Proof.
  assert (H2 : forall s, callsSince st
                 {| ObjectSchema := s;
                    calls := calls st ++ [authCall principal; CallSchemaFor] |}
               = [authCall principal; CallSchemaFor])
    by (intros; apply callsSince_app; reflexivity).
  destruct (UpdatePropertyAddDataType_cases m ctx principal className propName
              newDataType st)
    as [(e & Hauth & ->) | [(_ & _ & e & ->) | (Hauth & p & pr & _ & _ & Hd & _)]].
  - left. rewrite Hauth. split; [apply callsSince_app; reflexivity|].
    split; [reflexivity|]. split; [discriminate | reflexivity].
  - right. left. split; [|reflexivity].
    apply callsSince_app. simpl. rewrite <- app_assoc. reflexivity.
  - rewrite (UpdatePropertyAddDataType_found _ _ _ _ _ _ _ _ Hauth Hd).
    destruct (dataTypeAlreadyContained (DataType pr) newDataType).
    + right. left. split; [|reflexivity].
      apply callsSince_app. simpl. rewrite <- app_assoc. reflexivity.
    + cbv zeta.
      assert (H3 : callsSince st
                (logCall (CallSaveSchema ctx)
                   (stateAtSave principal className propName
                      (DataType pr ++ [newDataType]) st))
              = [authCall principal; CallSchemaFor; CallSaveSchema ctx])
        by (apply callsSince_app; simpl; rewrite <- app_assoc; reflexivity).
      destruct (saveSchema_result m _ ctx).
      * right. right. left. split; [exact H3 | reflexivity].
      * right. right. right. eexists. split; [|split; [reflexivity | exact H3]].
        apply callsSince_app. simpl. rewrite <- !app_assoc. reflexivity.
Qed.

(** X3.  Whatever the input and the outcome, a run leaves the skeleton of the
    schema as it was: the same classes in the same order, each with the same
    property names in the same order.  Nothing is added, removed, renamed or
    moved. *)
Theorem UpdatePropertyAddDataType_keeps_skeleton
  m ctx principal className propName newDataType st :
  skeleton
    (ObjectSchema
       (snd (UpdatePropertyAddDataType m ctx principal className propName newDataType st)))
  = skeleton (ObjectSchema st).
Proof.
  destruct (UpdatePropertyAddDataType_final_schema m ctx principal className propName
              newDataType st) as [-> | (p & pr & _ & _ & _ & ->)];
    [reflexivity | apply skeleton_store].
Qed.

(** X4.  Whatever the input and the outcome (refused, not found, save
    failed, migrator failed or not), the list of the addressed property is
    afterwards the old list, or the old list with [newDataType] appended when
    it did not hold the type: no type is removed from it or moved in it, and
    the lookups still find it. *)
Theorem UpdatePropertyAddDataType_only_appends
  m ctx principal className propName newDataType st dts :
  dataTypesOf (ObjectSchema st) className propName = Some dts ->
  exists dts',
    dataTypesOf
      (ObjectSchema (snd (UpdatePropertyAddDataType m ctx principal className propName
                            newDataType st))) className propName = Some dts'
    /\ (dts' = dts \/ ((newDataType ∉ dts) /\ dts' = dts ++ [newDataType])).
Proof.
  apply UpdatePropertyAddDataType_addressed.
Qed.

Lemma UpdatePropertyAddDataType_only_appends_witness :
  exists dts',
    dataTypesOf
      (ObjectSchema (snd (UpdatePropertyAddDataType Scenario.saveFails Background
                            Scenario.admin "Article" "tags" "text[]" Scenario.start)))
      "Article" "tags" = Some dts'
    /\ (dts' = ["text"] \/ (("text[]" ∉ ["text"]) /\ dts' = ["text"] ++ ["text[]"])).
Proof.
  apply (UpdatePropertyAddDataType_only_appends
           Scenario.saveFails Background Scenario.admin "Article" "tags" "text[]"
           Scenario.start ["text"]).
  reflexivity.
Defined.

(** X5.  Whatever the input and the outcome, if the list of the addressed
    property has no type twice before a run, it has none twice afterwards:
    the one append a run can make adds a type that the list did not hold. *)
Theorem UpdatePropertyAddDataType_keeps_NoDup
  m ctx principal className propName newDataType st dts :
  dataTypesOf (ObjectSchema st) className propName = Some dts ->
  NoDup dts ->
  exists dts',
    dataTypesOf
      (ObjectSchema (snd (UpdatePropertyAddDataType m ctx principal className propName
                            newDataType st))) className propName = Some dts'
    /\ NoDup dts'.
Proof.
  intros Hd Hnd.
  destruct (UpdatePropertyAddDataType_addressed m ctx principal className propName
              newDataType st dts Hd)
    as (dts' & Hd' & [-> | (Hnin & ->)]); eexists; (split; [exact Hd'|]).
  - exact Hnd.
  - apply NoDup_app. split; [exact Hnd|]. split.
    + intros x Hx Hx'. apply list_elem_of_singleton in Hx'. subst x. contradiction.
    + apply NoDup_singleton.
Qed.

Lemma UpdatePropertyAddDataType_keeps_NoDup_witness :
  exists dts',
    dataTypesOf
      (ObjectSchema (snd (UpdatePropertyAddDataType Scenario.allowAll Background
                            Scenario.admin "Article" "tags" "text[]" Scenario.start)))
      "Article" "tags" = Some dts'
    /\ NoDup dts'.
Proof.
  apply (UpdatePropertyAddDataType_keeps_NoDup
           Scenario.allowAll Background Scenario.admin "Article" "tags" "text[]"
           Scenario.start ["text"]).
  - reflexivity.
  - apply NoDup_singleton.
Defined.

(** X6.  After a run whose [saveSchema] failed, the same request again (by an
    authorized caller) finds the type in the in-memory list and returns [nil]
    at once: over both runs [saveSchema] is called once, the migrator never,
    and the type is in memory only. *)
Theorem UpdatePropertyAddDataType_retry_after_failed_save
  m ctx principal className propName newDataType st dts e :
  (forall st0, authorizer_Authorize m st0 principal "update" "schema/objects" = None) ->
  dataTypesOf (ObjectSchema st) className propName = Some dts ->
  newDataType ∉ dts ->
  saveSchema_result m
    (stateAtSave principal className propName (dts ++ [newDataType]) st) ctx = Some e ->
  let '(st1, (err2, st2)) :=
    addTwice m ctx principal className propName newDataType st in
  err2 = None
  /\ callsSince st st2
     = [authCall principal; CallSchemaFor; CallSaveSchema ctx;
        authCall principal; CallSchemaFor]
  /\ ObjectSchema st2 = ObjectSchema st1
  /\ dataTypesOf (ObjectSchema st2) className propName = Some (dts ++ [newDataType]).
Proof.
  intros Hauth H Hnin Hsave. unfold addTwice.
  rewrite (UpdatePropertyAddDataType_found _ _ _ _ _ _ _ dts (Hauth st) H).
  apply dataTypeAlreadyContained_false in Hnin. rewrite Hnin. cbv zeta.
  rewrite Hsave. cbn [snd].
  set (st1 := logCall (CallSaveSchema ctx)
                (stateAtSave principal className propName (dts ++ [newDataType]) st)).
  assert (Hd : dataTypesOf (ObjectSchema st1) className propName
               = Some (dts ++ [newDataType]))
    by (simpl; eapply dataTypesOf_withDataTypes; eassumption).
  rewrite (UpdatePropertyAddDataType_contained m ctx principal className propName
             newDataType st1 _ (Hauth st1) Hd)
    by (apply elem_of_app; right; apply list_elem_of_here).
  split; [reflexivity|]. split; [|split; [reflexivity | exact Hd]].
  apply callsSince_app. simpl. rewrite <- !app_assoc. reflexivity.
Qed.

Lemma UpdatePropertyAddDataType_retry_after_failed_save_witness :
  let '(st1, (err2, st2)) :=
    addTwice Scenario.saveFails Background Scenario.admin "Article" "tags" "text[]"
      Scenario.start in
  err2 = None
  /\ callsSince Scenario.start st2
     = [authCall Scenario.admin; CallSchemaFor; CallSaveSchema Background;
        authCall Scenario.admin; CallSchemaFor]
  /\ ObjectSchema st2 = ObjectSchema st1
  /\ dataTypesOf (ObjectSchema st2) "Article" "tags" = Some (["text"] ++ ["text[]"]).
Proof.
  apply (UpdatePropertyAddDataType_retry_after_failed_save
           Scenario.saveFails Background Scenario.admin "Article" "tags" "text[]"
           Scenario.start ["text"] (Errorf "disk full")).
  - intros st0. reflexivity.
  - reflexivity.
  - intros Hin. apply dataTypeAlreadyContained_true in Hin. discriminate Hin.
  - reflexivity.
Defined.

End ManagerProperties.

(** ** Further properties of the handler *)

Section HandlerProperties.

Import models Handler.

(** X7.  When the authorizer refuses the principal, [GetSchema] returns the
    zero [schema.Schema] (a [nil] [Objects] pointer) together with the
    authorizer's error, and the authorization is its only collaborator call:
    the schema is not read. *)
Theorem GetSchema_unauthorized_reads_nothing h principal w e :
  Authorizer_Authorize h w principal "list" "schema/*" = Some e ->
  exists w',
    GetSchema h principal w = (({| schema.Objects := None |}, Some e), w')
    /\ callsSince w w' = [CallAuthorize principal "list" "schema/*"]
    /\ CallReadOnlySchema ∉ callsSince w w'.
Proof.
  intros H. unfold GetSchema, bind, Authorize, invoke. rewrite H.
  eexists. split; [reflexivity|].
  assert (Hcalls : callsSince w (logCall (CallAuthorize principal "list" "schema/*") w)
                   = [CallAuthorize principal "list" "schema/*"])
    by (apply handler_callsSince_app; reflexivity).
  rewrite Hcalls. split; [reflexivity|].
  intros Hin. apply elem_of_cons in Hin as [Hin|Hin]; [discriminate Hin | inversion Hin].
Qed.

Lemma GetSchema_unauthorized_reads_nothing_witness :
  exists w',
    GetSchema Scenario.closedCluster Scenario.admin Scenario.world
      = (({| schema.Objects := None |}, Some (Errorf "forbidden")), w')
    /\ callsSince Scenario.world w' = [CallAuthorize Scenario.admin "list" "schema/*"]
    /\ CallReadOnlySchema ∉ callsSince Scenario.world w'.
Proof.
  apply (GetSchema_unauthorized_reads_nothing
           Scenario.closedCluster Scenario.admin Scenario.world (Errorf "forbidden")).
  reflexivity.
Defined.

(** X8.  Whatever the input, [JoinNode] first asks the cluster state for the
    node's address and then either stops with the resolve error or calls
    [Join] once, with the node ID and the voter flag as given, and returns
    what [Join] returns.  It never asks the authorizer and leaves the store
    alone. *)
Theorem JoinNode_call_sequences DefaultRaftPort h ctx node nodePort voter w :
  let '(r, w') := JoinNode DefaultRaftPort h ctx node nodePort voter w in
  store w' = store w
  /\ (forall p verb resource, CallAuthorize p verb resource ∉ callsSince w w')
  /\ ((snd (clusterState_NodeHostname h w node) = false
       /\ callsSince w w' = [CallNodeHostname node]
       /\ r = Some (Errorf ("could not resolve addr for node id " +:+ node)))
      \/ (snd (clusterState_NodeHostname h w node) = true
          /\ exists raftAddr,
              callsSince w w' = [CallNodeHostname node; CallJoin ctx node raftAddr voter]
              /\ r = metaWriter_Join h (logCall (CallNodeHostname node) w)
                       ctx node raftAddr voter)).
Proof.
  destruct (clusterState_NodeHostname h w node) as [addr ok] eqn:H.
  destruct ok.
  - rewrite (JoinNode_resolved _ _ _ _ _ _ _ _ H). cbv beta iota zeta.
    set (raftAddr := beforeColon addr +:+ ":" +:+ _).
    assert (Hcalls : callsSince w
              (logCall (CallJoin ctx node raftAddr voter)
                 (logCall (CallNodeHostname node) w))
            = [CallNodeHostname node; CallJoin ctx node raftAddr voter])
      by (apply handler_callsSince_app; simpl; rewrite <- app_assoc; reflexivity).
    rewrite Hcalls. split; [reflexivity|]. split.
    + intros p verb resource Hin.
      repeat (apply elem_of_cons in Hin as [Hin|Hin]; [discriminate Hin|]).
      inversion Hin.
    + right. split; [reflexivity|]. exists raftAddr. split; reflexivity.
  - unfold JoinNode, bind, NodeHostname, invoke. rewrite H. cbn [negb].
    assert (Hcalls : callsSince w (logCall (CallNodeHostname node) w)
                     = [CallNodeHostname node])
      by (apply handler_callsSince_app; reflexivity).
    unfold ret. cbv beta iota. rewrite Hcalls. split; [reflexivity|]. split.
    + intros p verb resource Hin.
      apply elem_of_cons in Hin as [Hin|Hin]; [discriminate Hin | inversion Hin].
    + left. auto.
Qed.

(** X9.  [JoinNode] does not check the host: when the resolved address is
    empty or starts with [':'], [Join] is still called, with an address that
    is [':'] followed by the chosen port. *)
Theorem JoinNode_empty_host_is_not_rejected
  DefaultRaftPort h ctx node nodePort voter w addr :
  clusterState_NodeHostname h w node = (addr, true) ->
  addr = "" \/ (exists rest, addr = ":" +:+ rest) ->
  callsSince w (snd (JoinNode DefaultRaftPort h ctx node nodePort voter w))
  = [CallNodeHostname node;
     CallJoin ctx node
       (":" +:+ (if String.eqb nodePort "" then fmt.Sprintf_d DefaultRaftPort
                 else nodePort))
       voter].
Proof.
  intros H Hempty. rewrite (JoinNode_resolved _ _ _ _ _ _ _ _ H). cbv zeta.
  assert (Hb : beforeColon addr = "") by (destruct Hempty as [-> | [rest ->]]; reflexivity).
  rewrite Hb, append_Empty.
  apply handler_callsSince_app. simpl. rewrite <- app_assoc. reflexivity.
Qed.

Lemma JoinNode_empty_host_is_not_rejected_witness :
  callsSince Scenario.world
    (snd (JoinNode 8300 ScenarioEdge.portOnly Background "node-3" "" false Scenario.world))
  = [CallNodeHostname "node-3"; CallJoin Background "node-3" ":8300" false].
Proof.
  apply (JoinNode_empty_host_is_not_rejected
           8300 ScenarioEdge.portOnly Background "node-3" "" false Scenario.world ":7946").
  - reflexivity.
  - right. exists "7946". reflexivity.
Defined.

Lemma append_cancel_l (p a b : string) : p +:+ a = p +:+ b -> a = b.
Proof.
  induction p as [|c p IH]; intros H; [exact H|].
  apply IH. change (String c (p +:+ a) = String c (p +:+ b)) in H.
  injection H as H. exact H.
Qed.

Lemma slashFree_tail c (s : string) : slashFree (String c s) -> slashFree s.
Proof.
  intros H a b ->. apply (H (String c a) b). reflexivity.
Qed.

(** Cutting at the first ['/'] is unambiguous when what precedes it has
    none. *)
Lemma append_slash_inj (c1 c2 r1 r2 : string) :
  slashFree c1 -> slashFree c2 ->
  c1 +:+ String "/" r1 = c2 +:+ String "/" r2 -> c1 = c2 /\ r1 = r2.
Proof.
  revert c2. induction c1 as [|x c1 IH]; intros [|y c2] H1 H2 Heq.
  - change (String "/" r1 = String "/" r2) in Heq. injection Heq as ->. auto.
  - exfalso. change (String "/" r1 = String y (c2 +:+ String "/" r2)) in Heq.
    injection Heq as <- _. apply (H2 "" c2). reflexivity.
  - exfalso. change (String x (c1 +:+ String "/" r1) = String "/" r2) in Heq.
    injection Heq as -> _. apply (H1 "" c1). reflexivity.
  - change (String x (c1 +:+ String "/" r1) = String y (c2 +:+ String "/" r2)) in Heq.
    injection Heq as -> Heq.
    destruct (IH c2 (slashFree_tail _ _ H1) (slashFree_tail _ _ H2) Heq) as [-> ->].
    auto.
Qed.

(** X10.  For class names without ['/'], the resource that
    [UpdateShardStatus] submits to the authorizer determines class and shard:
    two requests whose authorization calls are equal name the same class and
    the same shard (and the same principal). *)
Theorem UpdateShardStatus_resource_determines_shard
  h1 h2 ctx1 ctx2 p1 p2 class1 class2 shard1 shard2 status1 status2 w1 w2 :
  slashFree class1 -> slashFree class2 ->
  head (callsSince w1 (snd (UpdateShardStatus h1 ctx1 p1 class1 shard1 status1 w1)))
  = head (callsSince w2 (snd (UpdateShardStatus h2 ctx2 p2 class2 shard2 status2 w2))) ->
  class1 = class2 /\ shard1 = shard2 /\ p1 = p2.
Proof.
  intros Hs1 Hs2.
  assert (Hhead : forall h ctx p class shard status w,
             head (callsSince w (snd (UpdateShardStatus h ctx p class shard status w)))
             = Some (CallAuthorize p "update"
                       ("schema/" +:+ class +:+ "/shards/" +:+ shard))).
  { intros h ctx p class shard status w.
    unfold UpdateShardStatus, bind, Authorize, UpdateShardStatus_writer, invoke.
    destruct (Authorizer_Authorize h w p "update" _); cbn [snd ret].
    - erewrite handler_callsSince_app by reflexivity. reflexivity.
    - erewrite handler_callsSince_app
        by (simpl; rewrite <- app_assoc; reflexivity).
      reflexivity. }
  rewrite !Hhead. intros [= -> Heq].
  change (class1 +:+ String "/" ("shards/" +:+ shard1)
          = class2 +:+ String "/" ("shards/" +:+ shard2)) in Heq.
  apply (append_slash_inj class1 class2 _ _ Hs1 Hs2) in Heq as [-> Heq].
  apply append_cancel_l in Heq as ->. auto.
Qed.

Lemma UpdateShardStatus_resource_determines_shard_witness :
  "Article" = "Article" /\ "shard-0" = "shard-0" /\ Scenario.admin = Scenario.admin.
Proof.
  apply (UpdateShardStatus_resource_determines_shard
           Scenario.cluster Scenario.closedCluster Background Background
           Scenario.admin Scenario.admin "Article" "Article" "shard-0" "shard-0"
           "READY" "READONLY" Scenario.world Scenario.world).
  - intros a b H.
    destruct a as [|? a]; [discriminate H|]; injection H as _ H;
    repeat (destruct a as [|? a]; [discriminate H|]; injection H as _ H);
    destruct a; discriminate H.
  - intros a b H.
    destruct a as [|? a]; [discriminate H|]; injection H as _ H;
    repeat (destruct a as [|? a]; [discriminate H|]; injection H as _ H);
    destruct a; discriminate H.
  - reflexivity.
Defined.

(** X12.  Whatever the input, [UpdateShardStatus] asks the authorizer first
    and then either returns its error, or calls the meta writer once with
    class, shard and status as given and returns what the writer returns.  The
    writer is reached only after the authorizer returned [nil]. *)
Theorem UpdateShardStatus_call_sequences h ctx principal class shard status w :
  let resource := "schema/" +:+ class +:+ "/shards/" +:+ shard in
  let '(r, w') := UpdateShardStatus h ctx principal class shard status w in
  store w' = store w
  /\ ((callsSince w w' = [CallAuthorize principal "update" resource]
       /\ r = Authorizer_Authorize h w principal "update" resource /\ r <> None)
      \/ (Authorizer_Authorize h w principal "update" resource = None
          /\ callsSince w w'
             = [CallAuthorize principal "update" resource;
                CallUpdateShardStatus class shard status]
          /\ r = metaWriter_UpdateShardStatus h
                   (logCall (CallAuthorize principal "update" resource) w)
                   class shard status)).
Proof.
  cbv zeta. unfold UpdateShardStatus, bind, Authorize, UpdateShardStatus_writer, invoke.
  destruct (Authorizer_Authorize h w principal "update" _) as [e|]; cbv beta iota;
    unfold ret; (split; [reflexivity|]).
  - left. split; [apply handler_callsSince_app; reflexivity|].
    split; [reflexivity | discriminate].
  - right. split; [reflexivity|]. split; [|reflexivity].
    apply handler_callsSince_app. simpl. rewrite <- app_assoc. reflexivity.
Qed.

End HandlerProperties.

(** ** [Handler.ShardsStatus] *)

Section ShardsStatusProperties.

Import models HandlerShards.

Lemma shards_callsSince_app w w' l :
  calls w' = calls w ++ l -> callsSince w w' = l.
Proof.
  intros H. unfold callsSince. rewrite H. apply drop_app_length.
Qed.

(** X11.  [ShardsStatus] asks the authorizer for ["list"] on
    [schema/<class>/shards] first.  Refused, it returns the [nil] list with
    the authorizer's error and does not ask the meta reader; accepted, it
    asks the meta reader once and returns its list and its error as they
    come. *)
Theorem ShardsStatus_authorizes_then_reads :
  (forall h ctx principal class w e,
      Authorizer_Authorize h w principal "list" ("schema/" +:+ class +:+ "/shards")
        = Some e ->
      exists w',
        ShardsStatus h ctx principal class w = (([], Some e), w')
        /\ callsSince w w'
           = [CallAuthorize principal "list" ("schema/" +:+ class +:+ "/shards")])
  /\ (forall h ctx principal class w,
        Authorizer_Authorize h w principal "list" ("schema/" +:+ class +:+ "/shards")
          = None ->
        exists w',
          ShardsStatus h ctx principal class w
            = (metaReader_GetShardsStatus h
                 (logCall (CallAuthorize principal "list"
                             ("schema/" +:+ class +:+ "/shards")) w) class, w')
          /\ callsSince w w'
             = [CallAuthorize principal "list" ("schema/" +:+ class +:+ "/shards");
                CallGetShardsStatus class]).
Proof.
  split.
  - intros h ctx principal class w e H.
    unfold ShardsStatus, bind, Authorize, invoke. rewrite H.
    eexists. split; [reflexivity|]. apply shards_callsSince_app. reflexivity.
  - intros h ctx principal class w H.
    unfold ShardsStatus, bind, Authorize, GetShardsStatus, invoke. rewrite H.
    eexists. split; [reflexivity|].
    apply shards_callsSince_app. simpl. rewrite <- app_assoc. reflexivity.
Qed.

Lemma ShardsStatus_authorizes_then_reads_witness :
  (exists w',
      ShardsStatus ScenarioShards.closed Background Scenario.admin "Article"
        ScenarioShards.world = (([], Some (Errorf "forbidden")), w')
      /\ callsSince ScenarioShards.world w'
         = [CallAuthorize Scenario.admin "list" ("schema/" +:+ "Article" +:+ "/shards")])
  /\ (exists w',
        ShardsStatus ScenarioShards.open Background Scenario.admin "Article"
          ScenarioShards.world = ((ScenarioShards.shards, None), w')
        /\ callsSince ScenarioShards.world w'
           = [CallAuthorize Scenario.admin "list" ("schema/" +:+ "Article" +:+ "/shards");
              CallGetShardsStatus "Article"]).
Proof.
  split.
  - apply (proj1 ShardsStatus_authorizes_then_reads
             ScenarioShards.closed Background Scenario.admin "Article"
             ScenarioShards.world (Errorf "forbidden")).
    reflexivity.
  - apply (proj2 ShardsStatus_authorizes_then_reads
             ScenarioShards.open Background Scenario.admin "Article"
             ScenarioShards.world).
    reflexivity.
Defined.

End ShardsStatusProperties.
